(** * FASTBuild: the Exec() node and the process exit classification

    A shallow embedding of
      - [Code/Core/Process/Process.h]   (exit reasons, [ExitReasonToString],
        [HasAborted]) and
      - [Code/Tools/FBuild/FBuildCore/Graph/ExecNode.cpp]  ([Initialize],
        [DoDynamicDependencies], [DetermineNeedToBuildStatic], [DoBuild],
        [GetFullArgs], [GetInputFiles]),
    followed by the properties the specification states about them.

    Conventions.  [AString] is [string]; [Array<T>] and [Dependencies] are
    lists; the node graph and the file system are finite maps keyed by
    name; [int32_t]/[uint8_t]/[uint32_t] values are [Z], with the
    wrap-around written out where the code casts or multiplies.  A C++
    member function that mutates [this] or a reference argument returns
    the new value. *)

From Stdlib Require Import ZArith Ascii DecimalString.
From stdpp Require Import base option list gmap strings.

Local Open Scope Z_scope.

(* ===================================================================== *)
(** ** Core/Process/Process.h *)
(* ===================================================================== *)

Module Process.

(** [enum ExitReason : uint8_t] *)
Inductive ExitReason : Type :=
| PROCESS_EXIT_UNDEFINED          (* = 0, exit reason is not defined yet *)
| PROCESS_EXIT_NORMAL             (* = 1, process has exited normally *)
| PROCESS_EXIT_ABORTED            (* = 2, process was aborted *)
| PROCESS_EXIT_TIMEOUT            (* = 3, overall timeout *)
| PROCESS_EXIT_TIMEOUT_INACTIVE.  (* = 4, timeout from inactivity *)

#[global] Instance ExitReason_eq_dec : EqDecision ExitReason.
Proof. solve_decision. Defined.

(** The enumerators' values; this is also the implicit conversion to the
    [uint8_t] that [DoBuild] stores and [ExitReasonToString] receives. *)
Definition to_uint8 (r : ExitReason) : Z :=
  match r with
  | PROCESS_EXIT_UNDEFINED        => 0
  | PROCESS_EXIT_NORMAL           => 1
  | PROCESS_EXIT_ABORTED          => 2
  | PROCESS_EXIT_TIMEOUT          => 3
  | PROCESS_EXIT_TIMEOUT_INACTIVE => 4
  end.

(** [static const char* ExitReasonToString( uint8_t exitReason )]: the
    [switch] with its [default]. *)
Definition ExitReasonToString (exitReason : Z) : string :=
  if exitReason =? to_uint8 PROCESS_EXIT_UNDEFINED then "Undefined"
  else if exitReason =? to_uint8 PROCESS_EXIT_NORMAL then "Normal"
  else if exitReason =? to_uint8 PROCESS_EXIT_ABORTED then "Aborted"
  else if exitReason =? to_uint8 PROCESS_EXIT_TIMEOUT then "Process Timeout"
  else if exitReason =? to_uint8 PROCESS_EXIT_TIMEOUT_INACTIVE
       then "Process Timeout Inactive"
  else "Unknown".

(** The members of [class Process] that are common to every platform and
    that the code under study reads. *)
Record t : Type := mk {
  m_Started    : bool;
  m_ExitReason : ExitReason;
}.

(** [bool HasAborted() const { return m_ExitReason == PROCESS_EXIT_ABORTED; }] *)
Definition HasAborted (p : t) : bool :=
  bool_decide (m_ExitReason p = PROCESS_EXIT_ABORTED).

End Process.

(* ===================================================================== *)
(** ** Strings ([AString]) *)
(* ===================================================================== *)

(** The double-quote character and the one-character string the code
    builds with [AStackString<> quote( ... )]. *)
Definition quote_char : ascii := ascii_of_nat 34.
Definition quote : string := String quote_char EmptyString.

(** [AString::GetLength]. *)
Abbreviation GetLength := String.length.

(** [AStackString<>( token.Get(), token.GetEnd() - k )] and
    [pre.Assign( token.Get(), token.GetEnd() - k )]: the characters of
    [token] but the last [k]. *)
Definition dropEnd (k : nat) (token : string) : string :=
  String.substring 0 (GetLength token - k) token.

(** Modelled from the spec: [AString::EndsWith] (AString.cpp is not
    among the files embedded here); "if it ends with a positional marker":
    the string is at least as long as the marker and its last characters
    are the marker's. *)
Definition EndsWith (s marker : string) : bool :=
  let n := GetLength s in
  let k := GetLength marker in
  if (k <=? n)%nat
  then String.eqb (String.substring (n - k) k s) marker
  else false.

(** Modelled from the spec: [AString::Tokenize] (AString.cpp is not among
    the files embedded here); "Tokenizes the template on whitespace": the
    maximal runs of characters that are not white space, in order.  [cur]
    is the token being read, if any. *)
Fixpoint Tokenize_go (cur : option string) (s : string) : list string :=
  match s with
  | EmptyString => option_list cur
  | String c rest =>
      if Ascii.is_space c
      then option_list cur ++ Tokenize_go None rest
      else Tokenize_go
             (Some (from_option (fun t => t +:+ String c EmptyString)
                                (String c EmptyString) cur)) rest
  end.

Definition Tokenize (s : string) : list string := Tokenize_go None s.

(* ===================================================================== *)
(** ** Nodes, dependencies and the node graph *)
(* ===================================================================== *)

Module FileIO.

(** [FileIO::FileInfo]; the Exec node reads the name only. *)
Record FileInfo : Type := mkFileInfo {
  m_Name : string;
}.

End FileIO.

Module Node.

(** [Node::Type], restricted to the kinds of node an Exec node meets: its
    inputs and executable (files, possibly produced by other Exec nodes),
    directory listings, and nodes that are not files at all. *)
Inductive Type_ : Type :=
| FILE_NODE
| DIRECTORY_LIST_NODE
| EXEC_NODE
| ALIAS_NODE.

#[global] Instance Type_eq_dec : EqDecision Type_.
Proof. solve_decision. Defined.

(** A node as the Exec node sees it through [const Node *]: its name, its
    type and, for a [DirectoryListNode], the files of the listing
    ([DirectoryListNode::GetFiles]). *)
Record t : Type := mk {
  m_Name  : string;
  m_Type  : Type_;
  m_Files : list FileIO.FileInfo;
}.

#[global] Instance FileInfo_eq_dec : EqDecision FileIO.FileInfo.
Proof. solve_decision. Defined.

#[global] Instance t_eq_dec : EqDecision t.
Proof. solve_decision. Defined.

Definition GetName (n : t) : string := m_Name n.
Definition GetType (n : t) : Type_ := m_Type n.
Definition GetFiles (n : t) : list FileIO.FileInfo := m_Files n.

(** Modelled from the spec: [Node::IsAFile] (Node.h is not among the
    files embedded here); "a plain file node".  [ExecNode] is constructed as a
    [FileNode] ([ExecNode::ExecNode() : FileNode()]), so it counts. *)
Definition IsAFile (n : t) : bool :=
  match m_Type n with
  | FILE_NODE | EXEC_NODE => true
  | DIRECTORY_LIST_NODE | ALIAS_NODE => false
  end.

(** The node [CreateNode<FileNode>( name )] makes. *)
Definition FileNode (name : string) : t :=
  {| m_Name := name; m_Type := FILE_NODE; m_Files := [] |}.

End Node.

(** [Dependencies]: an array of [Dependency], each holding the node it
    points to. *)
Abbreviation Dependencies := (list Node.t).

(** [NodeGraph]: the nodes by name.  Modelled from the spec: "find or
    create a file-reference node for that path" ([NodeGraph::FindNode] and
    [NodeGraph::CreateNode] are not among the files embedded here). *)
Abbreviation NodeGraph := (gmap string Node.t).

Definition FindNode (nodeGraph : NodeGraph) (name : string) : option Node.t :=
  nodeGraph !! name.

Definition CreateNode (nodeGraph : NodeGraph) (n : Node.t) : NodeGraph :=
  <[Node.m_Name n := n]> nodeGraph.

(* ===================================================================== *)
(** ** Tools/FBuild/FBuildCore/Graph/ExecNode.cpp: the node *)
(* ===================================================================== *)

(** The reflected properties of [ExecNode] (the [REFLECT] block), its
    hidden state [m_NumExecInputFiles], and the members it inherits from
    [Node] that the code below reads or writes. *)
Record ExecNode : Type := mkExecNode {
  m_Name                    : string;
  m_ExecExecutable          : string;
  m_ExecInput               : list string;
  m_ExecInputPath           : list string;
  m_ExecInputPattern        : list string;
  m_ExecInputPathRecurse    : bool;
  m_ExecInputExcludePath    : list string;
  m_ExecInputExcludedFiles  : list string;
  m_ExecInputExcludePattern : list string;
  m_ExecArguments           : string;
  m_ExecWorkingDir          : string;
  m_ExecReturnCode          : Z;                 (* int32_t *)
  m_ExecAlwaysShowOutput    : bool;
  m_ExecUseStdOutAsOutput   : bool;
  m_ExecAlways              : bool;
  m_PreBuildDependencyNames : list string;
  m_Environment             : list string;
  m_NumExecInputFiles       : Z;                 (* uint32_t *)
  m_PreBuildDependencies    : Dependencies;
  m_StaticDependencies      : Dependencies;
  m_DynamicDependencies     : Dependencies;
  m_Stamp                   : Z;                 (* uint64_t *)
}.

(** Assignments to the members the code writes. *)
Definition set_NumExecInputFiles (v : Z) (n : ExecNode) : ExecNode :=
  mkExecNode (m_Name n) (m_ExecExecutable n) (m_ExecInput n)
    (m_ExecInputPath n) (m_ExecInputPattern n) (m_ExecInputPathRecurse n)
    (m_ExecInputExcludePath n) (m_ExecInputExcludedFiles n)
    (m_ExecInputExcludePattern n) (m_ExecArguments n) (m_ExecWorkingDir n)
    (m_ExecReturnCode n) (m_ExecAlwaysShowOutput n)
    (m_ExecUseStdOutAsOutput n) (m_ExecAlways n)
    (m_PreBuildDependencyNames n) (m_Environment n)
    v (m_PreBuildDependencies n) (m_StaticDependencies n)
    (m_DynamicDependencies n) (m_Stamp n).

Definition set_PreBuildDependencies (v : Dependencies) (n : ExecNode)
  : ExecNode :=
  mkExecNode (m_Name n) (m_ExecExecutable n) (m_ExecInput n)
    (m_ExecInputPath n) (m_ExecInputPattern n) (m_ExecInputPathRecurse n)
    (m_ExecInputExcludePath n) (m_ExecInputExcludedFiles n)
    (m_ExecInputExcludePattern n) (m_ExecArguments n) (m_ExecWorkingDir n)
    (m_ExecReturnCode n) (m_ExecAlwaysShowOutput n)
    (m_ExecUseStdOutAsOutput n) (m_ExecAlways n)
    (m_PreBuildDependencyNames n) (m_Environment n)
    (m_NumExecInputFiles n) v (m_StaticDependencies n)
    (m_DynamicDependencies n) (m_Stamp n).

Definition set_StaticDependencies (v : Dependencies) (n : ExecNode)
  : ExecNode :=
  mkExecNode (m_Name n) (m_ExecExecutable n) (m_ExecInput n)
    (m_ExecInputPath n) (m_ExecInputPattern n) (m_ExecInputPathRecurse n)
    (m_ExecInputExcludePath n) (m_ExecInputExcludedFiles n)
    (m_ExecInputExcludePattern n) (m_ExecArguments n) (m_ExecWorkingDir n)
    (m_ExecReturnCode n) (m_ExecAlwaysShowOutput n)
    (m_ExecUseStdOutAsOutput n) (m_ExecAlways n)
    (m_PreBuildDependencyNames n) (m_Environment n)
    (m_NumExecInputFiles n) (m_PreBuildDependencies n) v
    (m_DynamicDependencies n) (m_Stamp n).

Definition set_DynamicDependencies (v : Dependencies) (n : ExecNode)
  : ExecNode :=
  mkExecNode (m_Name n) (m_ExecExecutable n) (m_ExecInput n)
    (m_ExecInputPath n) (m_ExecInputPattern n) (m_ExecInputPathRecurse n)
    (m_ExecInputExcludePath n) (m_ExecInputExcludedFiles n)
    (m_ExecInputExcludePattern n) (m_ExecArguments n) (m_ExecWorkingDir n)
    (m_ExecReturnCode n) (m_ExecAlwaysShowOutput n)
    (m_ExecUseStdOutAsOutput n) (m_ExecAlways n)
    (m_PreBuildDependencyNames n) (m_Environment n)
    (m_NumExecInputFiles n) (m_PreBuildDependencies n)
    (m_StaticDependencies n) v (m_Stamp n).

Definition set_Stamp (v : Z) (n : ExecNode) : ExecNode :=
  mkExecNode (m_Name n) (m_ExecExecutable n) (m_ExecInput n)
    (m_ExecInputPath n) (m_ExecInputPattern n) (m_ExecInputPathRecurse n)
    (m_ExecInputExcludePath n) (m_ExecInputExcludedFiles n)
    (m_ExecInputExcludePattern n) (m_ExecArguments n) (m_ExecWorkingDir n)
    (m_ExecReturnCode n) (m_ExecAlwaysShowOutput n)
    (m_ExecUseStdOutAsOutput n) (m_ExecAlways n)
    (m_PreBuildDependencyNames n) (m_Environment n)
    (m_NumExecInputFiles n) (m_PreBuildDependencies n)
    (m_StaticDependencies n) (m_DynamicDependencies n) v.

(** [ExecNode::ExecNode()]: the defaults of the constructor, for a node
    called [name]. *)
Definition ExecNode_new (name : string) : ExecNode :=
  {| m_Name := name;
     m_ExecExecutable := EmptyString;
     m_ExecInput := [];
     m_ExecInputPath := [];
     m_ExecInputPattern := ["*.*"];
     m_ExecInputPathRecurse := true;
     m_ExecInputExcludePath := [];
     m_ExecInputExcludedFiles := [];
     m_ExecInputExcludePattern := [];
     m_ExecArguments := EmptyString;
     m_ExecWorkingDir := EmptyString;
     m_ExecReturnCode := 0;
     m_ExecAlwaysShowOutput := false;
     m_ExecUseStdOutAsOutput := false;
     m_ExecAlways := false;
     m_PreBuildDependencyNames := [];
     m_Environment := [];
     m_NumExecInputFiles := 0;
     m_PreBuildDependencies := [];
     m_StaticDependencies := [];
     m_DynamicDependencies := [];
     m_Stamp := 0 |}.

(* --------------------------------------------------------------------- *)
(** *** GetInputFiles and GetFullArgs *)
(* --------------------------------------------------------------------- *)

(** The four statements both branches of the loop of [GetInputFiles] share:
    [if ( !first ) fullArgs += ' ';  fullArgs += pre;  fullArgs += name;
     fullArgs += post;  first = false;].  The state is [(fullArgs, first)]. *)
Definition appendInput (pre post : string) (st : string * bool)
    (name : string) : string * bool :=
  let '(fullArgs, first) := st in
  let fullArgs := if negb first then fullArgs +:+ " " else fullArgs in
  let fullArgs := fullArgs +:+ pre in
  let fullArgs := fullArgs +:+ name in
  let fullArgs := fullArgs +:+ post in
  (fullArgs, false).

(** The body of the loop of [GetInputFiles] for one dependency: a directory
    list contributes each of its files, any other node its own name. *)
Definition GetInputFiles_dep (pre post : string) (st : string * bool)
    (n : Node.t) : string * bool :=
  if decide (Node.GetType n = Node.DIRECTORY_LIST_NODE)
  then foldl (fun st file => appendInput pre post st (FileIO.m_Name file))
             st (Node.GetFiles n)
  else appendInput pre post st (Node.GetName n).

(** [void ExecNode::GetInputFiles( AString & fullArgs, const AString & pre,
    const AString & post ) const]: [i] runs from 1 while
    [i < m_StaticDependencies.GetSize()], that is over the dependencies but
    the first. *)
Definition GetInputFiles (this : ExecNode) (fullArgs pre post : string)
  : string :=
  fst (foldl (GetInputFiles_dep pre post) (fullArgs, true)
             (drop 1 (m_StaticDependencies this))).

(** The body of the loop of [GetFullArgs] for one token. *)
Definition GetFullArgs_token (this : ExecNode) (fullArgs token : string)
  : string :=
  let fullArgs :=
    if EndsWith token "%1" then
      let pre := if (2 <? GetLength token)%nat
                 then dropEnd 2 token else EmptyString in
      GetInputFiles this fullArgs pre EmptyString
    else if EndsWith token (quote +:+ "%1" +:+ quote) then
      let pre := dropEnd 3 token in
      GetInputFiles this fullArgs pre quote
    else if EndsWith token "%2" then
      let fullArgs := if (2 <? GetLength token)%nat
                      then fullArgs +:+ dropEnd 2 token else fullArgs in
      fullArgs +:+ m_Name this
    else if EndsWith token (quote +:+ "%2" +:+ quote) then
      let pre := dropEnd 3 token in
      let fullArgs := fullArgs +:+ pre in
      let fullArgs := fullArgs +:+ m_Name this in
      fullArgs +:+ quote
    else
      fullArgs +:+ token in
  fullArgs +:+ " ".

(** [void ExecNode::GetFullArgs( AString & fullArgs ) const]. *)
Definition GetFullArgs (this : ExecNode) (fullArgs : string) : string :=
  let tokens := Tokenize (m_ExecArguments this) in
  foldl (GetFullArgs_token this) fullArgs tokens.

(* --------------------------------------------------------------------- *)
(** *** Initialize (the static dependency pass) *)
(* --------------------------------------------------------------------- *)

(** In the functions below [None] stands for a failed [ASSERT] (an explicit
    one, or the bounds check of [Array::operator[]]). *)

(** The arguments of [Function::GetDirectoryListNodeList] that come from the
    node. *)
Record DirectoryListSpec : Type := mkDirectoryListSpec {
  dl_paths              : list string;
  dl_excludePaths       : list string;
  dl_filesToExclude     : list string;
  dl_excludePatterns    : list string;
  dl_recurse            : bool;
  dl_includeReadOnlyStatusInHash : bool;
  dl_includeDirs        : bool;
  dl_patterns           : list string;
}.

Section StaticPass.

(** The BFF function layer, which is outside the Exec node: the nodes a
    file reference names ([resolve]), and the helpers that turn the
    pre-build dependency names, the input files and the input paths into
    dependencies, each returning its success flag, the new graph and the
    dependencies it found. *)
Variable resolve : NodeGraph -> string -> list Node.t.
Variable InitializePreBuildDependencies :
  NodeGraph -> list string -> bool * NodeGraph * Dependencies.
Variable GetFileNodes :
  NodeGraph -> list string -> bool * NodeGraph * Dependencies.
Variable GetDirectoryListNodeList :
  NodeGraph -> DirectoryListSpec -> bool * NodeGraph * Dependencies.

(** Modelled from the spec: [Function::GetFileNode] (Function.cpp is not
    among the files embedded here); "resolve the executable reference to
    exactly one file node (fails the node's initialization if not exactly
    one)".  The nodes found are appended to [nodes]. *)
Definition GetFileNode (nodeGraph : NodeGraph) (file : string)
    (nodes : Dependencies) : bool * Dependencies :=
  match resolve nodeGraph file with
  | [n] => if Node.IsAFile n then (true, nodes ++ [n]) else (false, nodes)
  | _ => (false, nodes)
  end.

(** [bool ExecNode::Initialize( NodeGraph & nodeGraph, ... )]. *)
Definition Initialize (nodeGraph : NodeGraph) (this : ExecNode)
  : option (bool * NodeGraph * ExecNode) :=
  (* .PreBuildDependencies *)
  let '(ok, nodeGraph, preBuild) :=
    InitializePreBuildDependencies nodeGraph (m_PreBuildDependencyNames this) in
  let this := set_PreBuildDependencies preBuild this in
  if negb ok then Some (false, nodeGraph, this) else
  (* .ExecExecutable *)
  let '(ok, executable) := GetFileNode nodeGraph (m_ExecExecutable this) [] in
  if negb ok then Some (false, nodeGraph, this) else
  if negb (length executable =? 1)%nat then None else
  (* .ExecInput *)
  let '(ok, nodeGraph, execInputFiles) :=
    GetFileNodes nodeGraph (m_ExecInput this) in
  if negb ok then Some (false, nodeGraph, this) else
  let this :=
    set_NumExecInputFiles (Z.of_nat (length execInputFiles) mod 2 ^ 32) this in
  (* .ExecInputPath *)
  let '(ok, nodeGraph, execInputPaths) :=
    GetDirectoryListNodeList nodeGraph
      {| dl_paths := m_ExecInputPath this;
         dl_excludePaths := m_ExecInputExcludePath this;
         dl_filesToExclude := m_ExecInputExcludedFiles this;
         dl_excludePatterns := m_ExecInputExcludePattern this;
         dl_recurse := m_ExecInputPathRecurse this;
         dl_includeReadOnlyStatusInHash := false;
         dl_includeDirs := false;
         dl_patterns := m_ExecInputPattern this |} in
  if negb ok then Some (false, nodeGraph, this) else
  if negb (length execInputPaths =? length (m_ExecInputPath this))%nat
  then None else
  (* Store Static Dependencies *)
  let deps := m_StaticDependencies this in
  let deps := deps ++ executable in
  let deps := deps ++ execInputFiles in
  let deps := deps ++ execInputPaths in
  Some (true, nodeGraph, set_StaticDependencies deps this).

End StaticPass.

(* --------------------------------------------------------------------- *)
(** *** DoDynamicDependencies (the dynamic dependency pass) *)
(* --------------------------------------------------------------------- *)

(** The inner loop, over the files of one directory list: find the file's
    node or create it, fail on a node that is not a file (the [FLOG_ERROR]
    is not recorded), otherwise add it.  The state is the graph and
    [m_DynamicDependencies]. *)
Fixpoint DoDynamicDependencies_files (files : list FileIO.FileInfo)
    (nodeGraph : NodeGraph) (dynamicDeps : Dependencies)
  : bool * NodeGraph * Dependencies :=
  match files with
  | [] => (true, nodeGraph, dynamicDeps)
  | file :: files =>
      match FindNode nodeGraph (FileIO.m_Name file) with
      | None =>
          let sn := Node.FileNode (FileIO.m_Name file) in
          DoDynamicDependencies_files files (CreateNode nodeGraph sn)
                                      (dynamicDeps ++ [sn])
      | Some sn =>
          if negb (Node.IsAFile sn)
          then (false, nodeGraph, dynamicDeps)
          else DoDynamicDependencies_files files nodeGraph
                                           (dynamicDeps ++ [sn])
      end
  end.

(** The outer loop: [count] iterations are left and [i] is the index. *)
Fixpoint DoDynamicDependencies_loop (count i : nat)
    (staticDeps : Dependencies)
    (nodeGraph : NodeGraph) (dynamicDeps : Dependencies)
  : option (bool * NodeGraph * Dependencies) :=
  match count with
  | O => Some (true, nodeGraph, dynamicDeps)
  | S count =>
      match staticDeps !! i with
      | None => None
      | Some n =>
          if decide (Node.GetType n = Node.DIRECTORY_LIST_NODE) then
            let '(ok, nodeGraph, dynamicDeps) :=
              DoDynamicDependencies_files (Node.GetFiles n)
                                          nodeGraph dynamicDeps in
            if ok
            then DoDynamicDependencies_loop count (S i) staticDeps
                                            nodeGraph dynamicDeps
            else Some (false, nodeGraph, dynamicDeps)
          else None
      end
  end.

(** The bounds of the loop of [DoDynamicDependencies].  In
    [1 + m_NumExecInputFiles] the field is a [uint32_t], so the sum is
    taken in 32 bits; adding [m_ExecInputPath.GetSize()], a [size_t], is
    done in the 64 bits of a [size_t]. *)
Definition DoDynamicDependencies_startIndex (this : ExecNode) : Z :=
  (1 + m_NumExecInputFiles this) mod 2 ^ 32.

Definition DoDynamicDependencies_endIndex (this : ExecNode) : Z :=
  ((1 + m_NumExecInputFiles this) mod 2 ^ 32
   + Z.of_nat (length (m_ExecInputPath this))) mod 2 ^ 64.

(** [bool ExecNode::DoDynamicDependencies( NodeGraph & nodeGraph )]; the
    loop runs while [i < endIndex], so not at all if [endIndex] is not
    above [startIndex]. *)
Definition DoDynamicDependencies (nodeGraph : NodeGraph) (this : ExecNode)
  : option (bool * NodeGraph * ExecNode) :=
  (* clear dynamic deps from previous passes *)
  let dynamicDeps : Dependencies := [] in
  let startIndex := DoDynamicDependencies_startIndex this in
  let endIndex := DoDynamicDependencies_endIndex this in
  match DoDynamicDependencies_loop (Z.to_nat (endIndex - startIndex))
          (Z.to_nat startIndex) (m_StaticDependencies this)
          nodeGraph dynamicDeps with
  | None => None
  | Some (ok, nodeGraph, dynamicDeps) =>
      Some (ok, nodeGraph, set_DynamicDependencies dynamicDeps this)
  end.

(** [bool ExecNode::DetermineNeedToBuildStatic() const];
    [Node::DetermineNeedToBuildStatic] is the default rule of the base
    class. *)
Definition DetermineNeedToBuildStatic
    (Node_DetermineNeedToBuildStatic : ExecNode -> bool) (this : ExecNode)
  : bool :=
  if m_ExecAlways this then true else Node_DetermineNeedToBuildStatic this.

(* ===================================================================== *)
(** ** The world of a build: options, process, files, diagnostics *)
(* ===================================================================== *)

(** The fields of [FBuild::Get().GetOptions()] that the node reads. *)
Record FBuildOptions : Type := mkFBuildOptions {
  m_ShowCommandOutput        : bool;
  m_ShowCommandSummary       : bool;
  m_ShowCommandLines         : bool;
  m_ProcessTimeoutSecs       : Z;                (* uint32_t *)
  m_ProcessOutputTimeoutSecs : Z;                (* uint32_t *)
}.

(** [Node::BuildResult], the two values [DoBuild] returns. *)
Inductive BuildResult : Type :=
| NODE_RESULT_FAILED
| NODE_RESULT_OK.

#[global] Instance BuildResult_eq_dec : EqDecision BuildResult.
Proof. solve_decision. Defined.

(** What [DoBuild] puts in the error string of its diagnostic: the
    formatted exit code ([ERROR_STR( exitCode )]) or the name of the exit
    reason. *)
Inductive ErrorStr : Type :=
| ERROR_STR (exitCode : Z)
| REASON_STR (name : string).

(** The effects of a build that are visible outside the node, in the order
    they happen. *)
Inductive Event : Type :=
| FLOG_OUTPUT (message : string)
| ERROR_FailedToSpawn (target : string)
| ERROR_ExecutionFailed (errorStr : ErrorStr) (target : string)
| SPAWN (executable args : string) (workingDir : option string)
        (environment : option (list string))
| READ_ALL_DATA (timeOutMS outputInactivityTimeoutMs : Z)
| WAIT_FOR_EXIT
| DUMP_OUTPUT (data : string)
| FILE_OPEN (path : string)
| FILE_WRITE (path data : string)
| FILE_CLOSE (path : string)
| RECORD_STAMP (path : string).

#[global] Instance ErrorStr_eq_dec : EqDecision ErrorStr.
Proof. solve_decision. Defined.

#[global] Instance Event_eq_dec : EqDecision Event.
Proof. solve_decision. Defined.

(** A file: its bytes and its last write time. *)
Record File : Type := mkFile {
  f_data          : string;
  f_lastWriteTime : Z;
}.

(** The file system, the clock and the trace of effects so far. *)
Record World : Type := mkWorld {
  w_files : gmap string File;
  w_clock : Z;
  w_trace : list Event;
}.

Definition emit (e : Event) (w : World) : World :=
  {| w_files := w_files w; w_clock := w_clock w;
     w_trace := w_trace w ++ [e] |}.

Definition set_files (files : gmap string File) (w : World) : World :=
  {| w_files := files; w_clock := w_clock w; w_trace := w_trace w |}.

(** Modelled from the spec: [FileStream] (FileStream.cpp is not among the
    files embedded here); the stdout buffer "is written verbatim to the node's
    output path, replacing any existing content": opening for writing
    leaves an empty file at the path, writing appends the bytes. *)
Definition FileStream_Open_WRITE_ONLY (path : string) (w : World) : World :=
  emit (FILE_OPEN path)
       (set_files (<[path := mkFile EmptyString (w_clock w)]> (w_files w)) w).

Definition FileStream_WriteBuffer (path data : string) (w : World) : World :=
  let old := from_option f_data EmptyString (w_files w !! path) in
  emit (FILE_WRITE path data)
       (set_files (<[path := mkFile (old +:+ data) (w_clock w)]> (w_files w)) w).

Definition FileStream_Close (path : string) (w : World) : World :=
  emit (FILE_CLOSE path) w.

(** Modelled from the spec: [Node::RecordStampFromBuiltFile] (Node.cpp is
    not among the files embedded here); "the node's build stamp is refreshed
    from the resulting artifact's modification time" (0 for a file that
    does not exist). *)
Definition GetFileLastWriteTime (w : World) (path : string) : Z :=
  from_option f_lastWriteTime 0 (w_files w !! path).

Definition RecordStampFromBuiltFile (this : ExecNode) (w : World)
  : ExecNode * World :=
  (set_Stamp (GetFileLastWriteTime w (m_Name this)) this,
   emit (RECORD_STAMP (m_Name this)) w).

(** Modelled from the spec: [Node::DumpOutput] (Node.cpp is not among the
    files embedded here); the buffer is "surfaced to the caller's output
    sink". *)
Definition DumpOutput (data : string) (w : World) : World :=
  emit (DUMP_OUTPUT data) w.

(** Modelled from the spec: [Node::GetEnvironmentString] (Node.cpp is not
    among the files embedded here); "resolve environment block (or inherit)":
    no block when the node configures no environment. *)
Definition GetEnvironmentString (envVars : list string)
  : option (list string) :=
  match envVars with
  | [] => None
  | _ => Some envVars
  end.

(** What the operating system and the child do with one [Process]: how
    spawning ends, what the child writes to its two streams and to the file
    system, and how the wait for its exit is classified. *)
Inductive SpawnResult : Type :=
| SPAWN_OK
| SPAWN_FAILED        (* the process could not be created *)
| SPAWN_ABORTED.      (* an abort flag was seen while spawning *)

Record Child : Type := mkChild {
  c_spawn      : SpawnResult;
  c_writes     : gmap string File -> gmap string File;
  c_stdout     : string;
  c_stderr     : string;
  c_exitReason : Process.ExitReason;
  c_exitCode   : Z;                              (* int32_t *)
}.

(** Modelled from the spec: [Process::Process], [Process::Spawn],
    [Process::ReadAllData] and [Process::WaitForExit] (Process.cpp is not
    among the files embedded here).  Spawning "fails if the executable cannot
    be located or the OS cannot create the process"; draining appends what
    the child wrote "into caller-supplied buffers"; waiting "records the
    state on first call, and returns the cached classification on
    subsequent calls". *)
Definition Process_new : Process.t :=
  {| Process.m_Started := false;
     Process.m_ExitReason := Process.PROCESS_EXIT_UNDEFINED |}.

Definition Process_Spawn (child : Child) (p : Process.t)
  : bool * Process.t :=
  match c_spawn child with
  | SPAWN_OK =>
      (true, {| Process.m_Started := true;
                Process.m_ExitReason := Process.m_ExitReason p |})
  | SPAWN_FAILED => (false, p)
  | SPAWN_ABORTED =>
      (false, {| Process.m_Started := Process.m_Started p;
                 Process.m_ExitReason := Process.PROCESS_EXIT_ABORTED |})
  end.

Definition Process_ReadAllData (child : Child) (memOut errOut : string)
  : string * string :=
  (memOut +:+ c_stdout child, errOut +:+ c_stderr child).

Definition Process_WaitForExit (child : Child) (p : Process.t)
  : Process.ExitReason * Z * Process.t :=
  if decide (Process.m_ExitReason p = Process.PROCESS_EXIT_UNDEFINED)
  then (c_exitReason child, c_exitCode child,
        {| Process.m_Started := false;
           Process.m_ExitReason := c_exitReason child |})
  else (Process.m_ExitReason p, c_exitCode child, p).

(* ===================================================================== *)
(** ** Tools/FBuild/FBuildCore/Graph/ExecNode.cpp: the build *)
(* ===================================================================== *)

Definition newline : string := String (ascii_of_nat 10) EmptyString.

(** The conversion [%i] of [AString::Format]. *)
Definition format_int (i : Z) : string :=
  NilZero.string_of_int (Z.to_int i).

(** [ExecNode::GetExecutable] (ExecNode.h):
    [m_StaticDependencies[ 0 ].GetNode()]. *)
Definition GetExecutable (this : ExecNode) : option Node.t :=
  m_StaticDependencies this !! 0%nat.

(** [void ExecNode::EmitCompilationMessage( const AString & args ) const]. *)
Definition EmitCompilationMessage (options : FBuildOptions)
    (this : ExecNode) (args : string) (w : World) : option World :=
  (* basic info *)
  let output := EmptyString in
  let output :=
    if m_ShowCommandSummary options
    then ((output +:+ "Run: ") +:+ m_Name this) +:+ newline
    else output in
  (* verbose mode *)
  output ←
    (if m_ShowCommandLines options then
       executable ← GetExecutable this;
       let verboseOutput :=
         Node.GetName executable +:+ " " +:+ args +:+ newline
         +:+ "WorkingDir: " +:+ m_ExecWorkingDir this +:+ newline
         +:+ "ExpectedReturnCode: " +:+ format_int (m_ExecReturnCode this)
         +:+ newline in
       Some (output +:+ verboseOutput)
     else Some output);
  (* output all at once for contiguousness *)
  Some (emit (FLOG_OUTPUT output) w).

(** The block guarded by [if ( m_ExecUseStdOutAsOutput == true )]. *)
Definition WriteStdOutAsOutput (this : ExecNode) (memOut : string)
    (w : World) : World :=
  let w := FileStream_Open_WRITE_ONLY (m_Name this) w in
  let w := if negb (String.eqb memOut EmptyString)
           then FileStream_WriteBuffer (m_Name this) memOut w
           else w in
  FileStream_Close (m_Name this) w.

(** [Node::BuildResult ExecNode::DoBuild( Job * job )].  The job's sink,
    the log and the file system are in [w]; [child] is what the spawned
    process will do. *)
Definition DoBuild (options : FBuildOptions) (child : Child)
    (this : ExecNode) (w : World)
  : option (BuildResult * ExecNode * World) :=
  (* If the workingDir is empty, use the current dir for the process *)
  let workingDir :=
    if String.eqb (m_ExecWorkingDir this) EmptyString
    then None else Some (m_ExecWorkingDir this) in
  (* Format compiler args string *)
  let fullArgs := GetFullArgs this EmptyString in
  let environment := GetEnvironmentString (m_Environment this) in
  w ← EmitCompilationMessage options this fullArgs w;
  (* spawn the process *)
  let p := Process_new in
  executable ← GetExecutable this;
  let w := emit (SPAWN (Node.GetName executable) fullArgs
                       workingDir environment) w in
  let '(spawnOK, p) := Process_Spawn child p in
  if negb spawnOK then
    if Process.HasAborted p
    then Some (NODE_RESULT_FAILED, this, w)
    else Some (NODE_RESULT_FAILED, this,
               emit (ERROR_FailedToSpawn (m_Name this)) w)
  else
  (* capture all of the stdout and stderr *)
  let w := emit (READ_ALL_DATA
                   ((m_ProcessTimeoutSecs options * 1000) mod 2 ^ 32)
                   ((m_ProcessOutputTimeoutSecs options * 1000) mod 2 ^ 32))
                (set_files (c_writes child (w_files w)) w) in
  let '(memOut, memErr) :=
    Process_ReadAllData child EmptyString EmptyString in
  (* Get result *)
  let w := emit WAIT_FOR_EXIT w in
  let '(exitReason, exitCode, p) := Process_WaitForExit child p in
  let exitReason := Process.to_uint8 exitReason in
  if exitReason =? Process.to_uint8 Process.PROCESS_EXIT_ABORTED
  then Some (NODE_RESULT_FAILED, this, w)
  else
  let buildFailed :=
    negb (exitReason =? Process.to_uint8 Process.PROCESS_EXIT_NORMAL)
    || negb (exitCode =? m_ExecReturnCode this) in
  (* Print output if appropriate *)
  let w :=
    if buildFailed || m_ExecAlwaysShowOutput this
       || m_ShowCommandOutput options
    then DumpOutput memErr (DumpOutput memOut w)
    else w in
  (* did the executable fail? *)
  if buildFailed then
    let errorStr :=
      if exitReason =? Process.to_uint8 Process.PROCESS_EXIT_NORMAL
      then ERROR_STR exitCode
      else REASON_STR (Process.ExitReasonToString exitReason) in
    Some (NODE_RESULT_FAILED, this,
          emit (ERROR_ExecutionFailed errorStr (m_Name this)) w)
  else
  let w := if m_ExecUseStdOutAsOutput this
           then WriteStdOutAsOutput this memOut w
           else w in
  (* record new file time *)
  let '(this, w) := RecordStampFromBuiltFile this w in
  Some (NODE_RESULT_OK, this, w).

(* ===================================================================== *)
(** ** What the specification calls the expanded inputs *)
(* ===================================================================== *)

(** The names one dependency stands for: the files of a directory list in
    listing order, the name of any other node. *)
Definition inputNames_of (n : Node.t) : list string :=
  if decide (Node.GetType n = Node.DIRECTORY_LIST_NODE)
  then FileIO.m_Name <$> Node.GetFiles n
  else [Node.GetName n].

(** The "space-separated list of input dependency names", before
    separation: dependency order, then listing order. *)
Definition expandedInputs (inputs : Dependencies) : list string :=
  inputs ≫= inputNames_of.

(** An entry "prefixed/suffixed by whatever literal text/quoting surrounded
    the marker". *)
Definition wrapped (pre post name : string) : string :=
  pre +:+ name +:+ post.

(** Entries joined by a single space. *)
Definition joined (entries : list string) : string :=
  String.concat " " entries.

(** Every entry preceded by one space: what follows the first entry. *)
Definition spaced (entries : list string) : string :=
  foldr (fun e r => " " +:+ e +:+ r) EmptyString entries.

(** The directory lists among the static dependencies: the entries the
    loop of [DoDynamicDependencies] reads, from its start index up to its
    end index. *)
Definition directoryLists (this : ExecNode) : Dependencies :=
  take (Z.to_nat (DoDynamicDependencies_endIndex this
                  - DoDynamicDependencies_startIndex this))
       (drop (Z.to_nat (DoDynamicDependencies_startIndex this))
             (m_StaticDependencies this)).

(** What the two [ASSERT]s of the loop ask of the node: the entries exist
    and are directory lists. *)
Definition directoryLists_ok (this : ExecNode) : Prop :=
  length (directoryLists this)
  = Z.to_nat (DoDynamicDependencies_endIndex this
              - DoDynamicDependencies_startIndex this)
  /\ Forall (fun n => Node.GetType n = Node.DIRECTORY_LIST_NODE)
            (directoryLists this).

#[global] Instance directoryLists_ok_dec this : Decision (directoryLists_ok this).
Proof. unfold directoryLists_ok. apply _. Defined.

(** The files of the listings, listing after listing. *)
Definition listedFiles (dirLists : Dependencies) : list FileIO.FileInfo :=
  dirLists ≫= Node.GetFiles.

(** [deps] are, entry by entry, the graph's nodes for [files]. *)
Definition nodes_of (nodeGraph : NodeGraph) (deps : Dependencies)
    (files : list FileIO.FileInfo) : Prop :=
  Forall2 (fun sn file => nodeGraph !! FileIO.m_Name file = Some sn)
          deps files.

(** Every node of the graph is stored under its own name. *)
Definition graph_ok (nodeGraph : NodeGraph) : Prop :=
  map_Forall (fun name n => Node.GetName n = name) nodeGraph.

(** What a build added to the trace. *)
Definition events_since (w w' : World) : list Event :=
  drop (length (w_trace w)) (w_trace w').

(** The buffers dumped to the output sink, in order. *)
Definition dumped (events : list Event) : list string :=
  omap (fun e => match e with DUMP_OUTPUT data => Some data | _ => None end)
       events.

(** The handling of the captured output: dumping it, writing it to a file,
    recording the stamp of the file. *)
Definition is_output_handling (e : Event) : bool :=
  match e with
  | DUMP_OUTPUT _ | FILE_OPEN _ | FILE_WRITE _ _ | FILE_CLOSE _
  | RECORD_STAMP _ => true
  | _ => false
  end.

(** The error diagnostics. *)
Definition is_error (e : Event) : bool :=
  match e with
  | ERROR_FailedToSpawn _ | ERROR_ExecutionFailed _ _ => true
  | _ => false
  end.

(** The build was cancelled: an abort flag was seen while spawning, or the
    wait for the exit was classified as aborted. *)
Definition cancelled (child : Child) : Prop :=
  c_spawn child = SPAWN_ABORTED
  \/ (c_spawn child = SPAWN_OK
      /\ c_exitReason child = Process.PROCESS_EXIT_ABORTED).

(** The tool failed: it could not be spawned, or it ran and timed out or
    exited with a code that is not the expected one. *)
Definition tool_failed (this : ExecNode) (child : Child) : Prop :=
  c_spawn child = SPAWN_FAILED
  \/ (c_spawn child = SPAWN_OK
      /\ c_exitReason child <> Process.PROCESS_EXIT_ABORTED
      /\ (c_exitReason child <> Process.PROCESS_EXIT_NORMAL
          \/ c_exitCode child <> m_ExecReturnCode this)).

(** The value [DoBuild] returned. *)
Definition result_of (r : option (BuildResult * ExecNode * World))
  : option BuildResult :=
  (fun x => x.1.1) <$> r.

(* ===================================================================== *)
(** ** Example inputs *)
(* ===================================================================== *)

(** An Exec node [out.o] that runs [cc] on the input files [a.c] and [b.c]
    and on the directories [paths]. *)
Definition example_exec (args : string) (paths : list string)
    (alwaysShowOutput useStdOutAsOutput : bool)
    (staticDeps : Dependencies) : ExecNode :=
  {| m_Name := "out.o";
     m_ExecExecutable := "cc";
     m_ExecInput := ["a.c"; "b.c"];
     m_ExecInputPath := paths;
     m_ExecInputPattern := ["*.*"];
     m_ExecInputPathRecurse := true;
     m_ExecInputExcludePath := [];
     m_ExecInputExcludedFiles := [];
     m_ExecInputExcludePattern := [];
     m_ExecArguments := args;
     m_ExecWorkingDir := EmptyString;
     m_ExecReturnCode := 0;
     m_ExecAlwaysShowOutput := alwaysShowOutput;
     m_ExecUseStdOutAsOutput := useStdOutAsOutput;
     m_ExecAlways := false;
     m_PreBuildDependencyNames := [];
     m_Environment := [];
     m_NumExecInputFiles := 2;
     m_PreBuildDependencies := [];
     m_StaticDependencies := staticDeps;
     m_DynamicDependencies := [];
     m_Stamp := 0 |}.

Definition example_deps : Dependencies :=
  [Node.FileNode "cc"; Node.FileNode "a.c"; Node.FileNode "b.c"].

(** The directory list of [src/], with two files. *)
Definition example_listing : Node.t :=
  {| Node.m_Name := "src/";
     Node.m_Type := Node.DIRECTORY_LIST_NODE;
     Node.m_Files := [FileIO.mkFileInfo "src/x.c";
                      FileIO.mkFileInfo "src/y.c"] |}.

(** The node of the specification's templating example. *)
Definition example_node : ExecNode :=
  example_exec "-o %2 %1" [] false false example_deps.

(** The same node with the quoted marker as its whole template. *)
Definition example_node_quoted : ExecNode :=
  example_exec (quote +:+ "%1" +:+ quote) [] false false example_deps.

(** The same node, always showing its output. *)
Definition example_node_show : ExecNode :=
  example_exec "-o %2 %1" [] true false example_deps.

(** The same node, using the stdout as its output. *)
Definition example_node_stdout : ExecNode :=
  example_exec "-o %2 %1" [] false true example_deps.

(** The same node with the directory [src/] among its inputs, after and
    before the static pass. *)
Definition example_node_dirs : ExecNode :=
  example_exec "-o %2 %1" ["src/"] false false
               (example_deps ++ [example_listing]).

Definition example_node_fresh : ExecNode :=
  set_NumExecInputFiles 0 (example_exec "-o %2 %1" ["src/"] false false []).

(** A graph that knows one of the two listed files already. *)
Definition example_graph : NodeGraph :=
  {[ "src/x.c" := Node.FileNode "src/x.c" ]}.

(** A function layer for the examples: a reference names the node of the
    graph with that name, or a new file; input files are files; every
    input path has the listing above.  The second resolution is of a
    reference that names two nodes. *)
Definition example_resolve (nodeGraph : NodeGraph) (file : string)
  : list Node.t :=
  match nodeGraph !! file with
  | Some n => [n]
  | None => [Node.FileNode file]
  end.

Definition example_resolve_two (nodeGraph : NodeGraph) (file : string)
  : list Node.t :=
  [Node.FileNode (file +:+ ".1"); Node.FileNode (file +:+ ".2")].

Definition example_InitializePreBuildDependencies (nodeGraph : NodeGraph)
    (names : list string) : bool * NodeGraph * Dependencies :=
  (true, nodeGraph, []).

Definition example_GetFileNodes (nodeGraph : NodeGraph)
    (files : list string) : bool * NodeGraph * Dependencies :=
  (true, nodeGraph, Node.FileNode <$> files).

Definition example_GetDirectoryListNodeList (nodeGraph : NodeGraph)
    (dirs : DirectoryListSpec) : bool * NodeGraph * Dependencies :=
  (true, nodeGraph, (fun _ => example_listing) <$> dl_paths dirs).

Definition example_options : FBuildOptions :=
  {| m_ShowCommandOutput := false;
     m_ShowCommandSummary := false;
     m_ShowCommandLines := false;
     m_ProcessTimeoutSecs := 0;
     m_ProcessOutputTimeoutSecs := 0 |}.

(** A child that prints [hello] and exits with [exitCode] for the reason
    [exitReason]. *)
Definition example_child (exitReason : Process.ExitReason) (exitCode : Z)
  : Child :=
  {| c_spawn := SPAWN_OK;
     c_writes := fun files => files;
     c_stdout := "hello";
     c_stderr := "oops";
     c_exitReason := exitReason;
     c_exitCode := exitCode |}.

(** A world in which [out.o] exists already. *)
Definition example_world : World :=
  {| w_files := {[ "out.o" := mkFile "stale" 7 ]};
     w_clock := 42;
     w_trace := [] |}.

(* ===================================================================== *)
(** ** Vocabulary of the further properties *)
(* ===================================================================== *)

(** A directory list without files. *)
Definition is_empty_listing (n : Node.t) : bool :=
  bool_decide (Node.GetType n = Node.DIRECTORY_LIST_NODE)
  && bool_decide (Node.GetFiles n = []).

(** The path of [file] is taken in the graph by a node that is not a
    file. *)
Definition collides (nodeGraph : NodeGraph) (file : FileIO.FileInfo) : Prop :=
  exists sn, nodeGraph !! FileIO.m_Name file = Some sn
             /\ Node.IsAFile sn = false.

(** A file node that the graph holds. *)
Definition file_of_graph (nodeGraph : NodeGraph) (n : Node.t) : Prop :=
  Node.IsAFile n = true /\ exists name, nodeGraph !! name = Some n.




(** What [DoBuild] hands back to its caller: the result and the node. *)
Definition returned_of (r : option (BuildResult * ExecNode * World))
  : option (BuildResult * ExecNode) :=
  (fun x => x.1) <$> r.

(** The events by kind. *)
Definition is_file_event (e : Event) : bool :=
  match e with
  | FILE_OPEN _ | FILE_WRITE _ _ | FILE_CLOSE _ => true
  | _ => false
  end.

Definition is_stamp_event (e : Event) : bool :=
  match e with
  | RECORD_STAMP _ => true
  | _ => false
  end.

Definition is_spawn_event (e : Event) : bool :=
  match e with
  | SPAWN _ _ _ _ => true
  | _ => false
  end.

(** The graph and the node the dynamic pass leaves on the example. *)
Definition example_graph_after : NodeGraph :=
  <["src/y.c" := Node.FileNode "src/y.c"]> example_graph.

Definition example_node_after : ExecNode :=
  set_DynamicDependencies
    [Node.FileNode "src/x.c"; Node.FileNode "src/y.c"] example_node_dirs.

(** A graph in which a listed path is taken by a node that is not a
    file. *)
Definition example_graph_alias : NodeGraph :=
  <["src/y.c" := Node.mk "src/y.c" Node.ALIAS_NODE []]> example_graph.




(* ===================================================================== *)
(** ** Facts about strings *)
(* ===================================================================== *)

(** Appending unfolds on a constructor while these facts are proved. *)
#[local] Arguments String.append !_ _ / : simpl nomatch.

Lemma append_nil_r (s : string) : s +:+ EmptyString = s.
Proof. induction s as [|c s IH]; simpl; [done | by rewrite IH]. Qed.

Lemma append_assoc (s1 s2 s3 : string) :
  (s1 +:+ s2) +:+ s3 = s1 +:+ s2 +:+ s3.
Proof. induction s1 as [|c s1 IH]; simpl; [done | by rewrite IH]. Qed.

Lemma length_append (s1 s2 : string) :
  GetLength (s1 +:+ s2) = (GetLength s1 + GetLength s2)%nat.
Proof. induction s1 as [|c s1 IH]; simpl; [done | by rewrite IH]. Qed.

Lemma substring_all (s : string) : String.substring 0 (GetLength s) s = s.
Proof. induction s as [|c s IH]; simpl; [done | by rewrite IH]. Qed.

Lemma substring_prefix (s1 s2 : string) :
  String.substring 0 (GetLength s1) (s1 +:+ s2) = s1.
Proof.
  induction s1 as [|c s1 IH]; simpl.
  - by destruct s2.
  - by rewrite IH.
Qed.

Lemma substring_skip (s1 s2 : string) (k : nat) :
  String.substring (GetLength s1) k (s1 +:+ s2) = String.substring 0 k s2.
Proof. induction s1 as [|c s1 IH]; simpl; [done | by rewrite IH]. Qed.

(** A string ends with what was appended to it last. *)
Lemma EndsWith_append (s marker : string) :
  EndsWith (s +:+ marker) marker = true.
Proof.
  unfold EndsWith. rewrite length_append.
  destruct (Nat.leb_spec (GetLength marker) (GetLength s + GetLength marker))
    as [_|?]; [|lia].
  replace (GetLength s + GetLength marker - GetLength marker)%nat
    with (GetLength s) by lia.
  rewrite substring_skip, substring_all. apply String.eqb_refl.
Qed.

(** A string that ends with a marker is some string followed by it. *)
Lemma EndsWith_inv (s marker : string) :
  EndsWith s marker = true -> exists s0, s = s0 +:+ marker.
Proof.
  unfold EndsWith.
  destruct (Nat.leb_spec (GetLength marker) (GetLength s)) as [Hle|?];
    [|done].
  intros Heq%String.eqb_eq.
  revert Hle Heq. generalize (GetLength marker) at 1 2 3 as k.
  induction s as [|c s IH]; intros k Hle Heq.
  - exists EmptyString. simpl in *.
    assert (k = 0)%nat as -> by lia. by rewrite <- Heq.
  - destruct (decide (k = S (GetLength s))) as [->|Hne].
    + exists EmptyString. simpl in *.
      rewrite Nat.sub_diag in Heq. simpl in Heq.
      by rewrite substring_all in Heq.
    + simpl in Hle.
      replace (GetLength (String c s) - k)%nat
        with (S (GetLength s - k)) in Heq by (simpl; lia).
      simpl in Heq.
      destruct (IH k) as [s0 Hs0]; [lia | done |].
      exists (String c s0). simpl. by rewrite <- Hs0.
Qed.

(** The last character decides: two strings that end differently are not
    the same string. *)
Lemma append_last_inj (s1 s2 : string) (c1 c2 : ascii) :
  s1 +:+ String c1 EmptyString = s2 +:+ String c2 EmptyString -> c1 = c2.
Proof.
  revert s2. induction s1 as [|a s1 IH]; intros [|b s2] Heq;
    simpl in Heq.
  - congruence.
  - injection Heq as _ Heq. by destruct s2.
  - injection Heq as _ Heq. by destruct s1.
  - injection Heq as _ Heq. by eapply IH.
Qed.

Lemma dropEnd_append (s1 s2 : string) :
  dropEnd (GetLength s2) (s1 +:+ s2) = s1.
Proof.
  unfold dropEnd. rewrite length_append.
  replace (GetLength s1 + GetLength s2 - GetLength s2)%nat
    with (GetLength s1) by lia.
  apply substring_prefix.
Qed.

(* ===================================================================== *)
(** ** Process.h: the names of the exit reasons *)
(* ===================================================================== *)

(** C9.  [ExitReasonToString] maps the five exit reasons Undefined, Normal,
    Aborted, Timeout and TimeoutInactive to the strings "Undefined",
    "Normal", "Aborted", "Process Timeout" and "Process Timeout Inactive"
    respectively. *)
Theorem ExitReasonToString_names :
  Process.ExitReasonToString
    (Process.to_uint8 Process.PROCESS_EXIT_UNDEFINED) = "Undefined"
  /\ Process.ExitReasonToString
       (Process.to_uint8 Process.PROCESS_EXIT_NORMAL) = "Normal"
  /\ Process.ExitReasonToString
       (Process.to_uint8 Process.PROCESS_EXIT_ABORTED) = "Aborted"
  /\ Process.ExitReasonToString
       (Process.to_uint8 Process.PROCESS_EXIT_TIMEOUT) = "Process Timeout"
  /\ Process.ExitReasonToString
       (Process.to_uint8 Process.PROCESS_EXIT_TIMEOUT_INACTIVE)
     = "Process Timeout Inactive".
Proof. repeat split. Qed.

(** The five names are five different strings, and none of them is the
    name of a value outside the enumeration. *)
Lemma ExitReasonToString_inj (r1 r2 : Process.ExitReason) :
  Process.ExitReasonToString (Process.to_uint8 r1)
  = Process.ExitReasonToString (Process.to_uint8 r2) -> r1 = r2.
Proof. by destruct r1, r2. Qed.

Lemma ExitReasonToString_default (exitReason : Z) :
  (forall r, exitReason <> Process.to_uint8 r) ->
  Process.ExitReasonToString exitReason = "Unknown".
Proof.
  intros Hout. unfold Process.ExitReasonToString.
  repeat match goal with
  | |- context [ ?x =? Process.to_uint8 ?r ] =>
      destruct (Z.eqb_spec x (Process.to_uint8 r)) as [Heq|_];
      [ by destruct (Hout r) | ]
  end.
  done.
Qed.

(* ===================================================================== *)
(** ** DetermineNeedToBuildStatic *)
(* ===================================================================== *)

(** A node flagged [ExecAlways] needs building whatever the default rule
    says; any other node follows the default rule. *)
Lemma DetermineNeedToBuildStatic_always (default : ExecNode -> bool)
    (this : ExecNode) :
  DetermineNeedToBuildStatic default this
  = m_ExecAlways this || default this.
Proof. unfold DetermineNeedToBuildStatic. by destruct (m_ExecAlways this). Qed.

(* ===================================================================== *)
(** ** GetInputFiles: the expansion of the inputs *)
(* ===================================================================== *)

Lemma joined_cons (e : string) (entries : list string) :
  joined (e :: entries) = e +:+ spaced entries.
Proof.
  revert e. induction entries as [|e' entries IH]; intros e.
  - by rewrite append_nil_r.
  - change (joined (e :: e' :: entries))
      with (e +:+ " " +:+ joined (e' :: entries)).
    by rewrite IH.
Qed.

Lemma appendInput_wrapped (pre post fullArgs name : string) (first : bool) :
  appendInput pre post (fullArgs, first) name
  = (fullArgs +:+ (if first then EmptyString else " ")
              +:+ wrapped pre post name, false).
Proof.
  unfold appendInput, wrapped.
  destruct first; simpl; by rewrite !append_assoc.
Qed.

Lemma foldl_appendInput_rest (pre post : string) (names : list string) :
  forall fullArgs,
    foldl (appendInput pre post) (fullArgs, false) names
    = (fullArgs +:+ spaced (wrapped pre post <$> names), false).
Proof.
  induction names as [|name names IH]; intros fullArgs.
  - simpl. by rewrite append_nil_r.
  - cbn [foldl fmap list_fmap spaced foldr].
    rewrite appendInput_wrapped, IH. f_equal.
    by rewrite !append_assoc.
Qed.

Lemma foldl_appendInput_first (pre post fullArgs : string)
    (names : list string) :
  fst (foldl (appendInput pre post) (fullArgs, true) names)
  = fullArgs +:+ joined (wrapped pre post <$> names).
Proof.
  destruct names as [|name names].
  - simpl. by rewrite append_nil_r.
  - cbn [foldl fmap list_fmap].
    rewrite appendInput_wrapped, foldl_appendInput_rest, joined_cons.
    simpl. by rewrite !append_assoc.
Qed.

(** The loop over the dependencies is one loop over the expanded names. *)
Lemma foldl_GetInputFiles_dep (pre post : string) (deps : Dependencies) :
  forall st,
    foldl (GetInputFiles_dep pre post) st deps
    = foldl (appendInput pre post) st (expandedInputs deps).
Proof.
  induction deps as [|n deps IH]; intros st; [done|].
  unfold expandedInputs. cbn [foldl mbind list_bind].
  rewrite foldl_app, IH. f_equal.
  unfold GetInputFiles_dep, inputNames_of.
  destruct (decide _); [|done].
  by rewrite foldl_fmap.
Qed.

Lemma GetInputFiles_joined (this : ExecNode) (fullArgs pre post : string) :
  GetInputFiles this fullArgs pre post
  = fullArgs
    +:+ joined (wrapped pre post
                  <$> expandedInputs (drop 1 (m_StaticDependencies this))).
Proof.
  unfold GetInputFiles.
  by rewrite foldl_GetInputFiles_dep, foldl_appendInput_first.
Qed.

(* ===================================================================== *)
(** ** GetFullArgs: the argument template *)
(* ===================================================================== *)

(** A token that ends with a closing quote does not end with a marker
    whose last character is not the quote. *)
Lemma EndsWith_quote_last (s marker : string) (c : ascii) :
  c <> quote_char ->
  EndsWith (s +:+ quote) (marker +:+ String c EmptyString) = false.
Proof.
  intros Hc. destruct (EndsWith _ _) eqn:Hends; [|done].
  apply EndsWith_inv in Hends as [s0 Hs0]. destruct Hc.
  symmetry. apply (append_last_inj s (s0 +:+ marker)).
  rewrite append_assoc. exact Hs0.
Qed.

(** The token [pre"%1"]: each input on its own between the quotes, after
    the prefix. *)
Lemma GetFullArgs_token_quoted_inputs (this : ExecNode)
    (fullArgs pre : string) :
  GetFullArgs_token this fullArgs (pre +:+ quote +:+ "%1" +:+ quote)
  = (fullArgs
     +:+ joined (wrapped (pre +:+ quote) quote
                   <$> expandedInputs (drop 1 (m_StaticDependencies this))))
    +:+ " ".
Proof.
  unfold GetFullArgs_token.
  assert (EndsWith (pre +:+ quote +:+ "%1" +:+ quote) "%1" = false)
    as ->.
  { rewrite <- (append_assoc pre quote).
    rewrite <- (append_assoc (pre +:+ quote) "%1").
    by apply (EndsWith_quote_last _ "%" "1"). }
  rewrite (EndsWith_append pre (quote +:+ "%1" +:+ quote)).
  rewrite GetInputFiles_joined.
  rewrite <- (append_assoc pre quote).
  by rewrite (dropEnd_append (pre +:+ quote) ("%1" +:+ quote)
              : dropEnd 3 _ = _).
Qed.

(** C3.  With the template [-o %2 %1], the output name [out.o] and the
    inputs [a.c] and [b.c], [GetFullArgs] yields [-o out.o a.c b.c] followed
    by the trailing space; and a token that ends with the quoted marker,
    preceded by any prefix, expands to the inputs each wrapped on its own
    in the prefix and the quotes, with exactly one space between an entry
    and the next.  The last part shows it on the template that is only the
    quoted marker. *)
Theorem GetFullArgs_templating :
  (forall (this : ExecNode) (executable : Node.t),
      m_ExecArguments this = "-o %2 %1" ->
      m_Name this = "out.o" ->
      m_StaticDependencies this
      = [executable; Node.FileNode "a.c"; Node.FileNode "b.c"] ->
      GetFullArgs this EmptyString = "-o out.o a.c b.c ")
  /\ (forall (this : ExecNode) (fullArgs pre : string),
         GetFullArgs_token this fullArgs (pre +:+ quote +:+ "%1" +:+ quote)
         = (fullArgs
            +:+ joined ((fun name => (pre +:+ quote) +:+ name +:+ quote)
                          <$> expandedInputs
                                (drop 1 (m_StaticDependencies this))))
           +:+ " ")
  /\ (forall (this : ExecNode) (executable : Node.t),
         m_ExecArguments this = quote +:+ "%1" +:+ quote ->
         m_StaticDependencies this
         = [executable; Node.FileNode "a.c"; Node.FileNode "b.c"] ->
         GetFullArgs this EmptyString
         = quote +:+ "a.c" +:+ quote +:+ " "
           +:+ quote +:+ "b.c" +:+ quote +:+ " ").
Proof.
  split; [|split].
  - intros this executable Hargs Hname Hdeps.
    unfold GetFullArgs, GetFullArgs_token, GetInputFiles.
    rewrite Hargs, Hname, Hdeps. reflexivity.
  - intros. apply GetFullArgs_token_quoted_inputs.
  - intros this executable Hargs Hdeps.
    unfold GetFullArgs, GetFullArgs_token, GetInputFiles.
    rewrite Hargs, Hdeps. reflexivity.
Qed.

(* ===================================================================== *)
(** ** DoDynamicDependencies: the dynamic pass *)
(* ===================================================================== *)

Lemma nodes_of_weaken (g g' : NodeGraph) deps files :
  g ⊆ g' -> nodes_of g deps files -> nodes_of g' deps files.
Proof.
  intros Hsub Hnodes. eapply Forall2_impl; [exact Hnodes|].
  intros sn file Hsn. exact (lookup_weaken g g' _ _ Hsn Hsub).
Qed.

(** One listing.  The pass only adds to the graph; what it appends is
    determined by the listing and the graph, not by what was in the list
    before; and on any later graph the same entries are appended again and
    nothing is created. *)
Lemma DoDynamicDependencies_files_spec (files : list FileIO.FileInfo) :
  forall (g : NodeGraph) (dyn : Dependencies),
  exists ok g' added,
    DoDynamicDependencies_files files g dyn = (ok, g', dyn ++ added)
    /\ g ⊆ g'
    /\ (ok = true -> nodes_of g' added files)
    /\ forall (g2 : NodeGraph) (dyn2 : Dependencies),
         g' ⊆ g2 ->
         DoDynamicDependencies_files files g2 dyn2 = (ok, g2, dyn2 ++ added).
Proof.
  induction files as [|file files IH]; intros g dyn.
  - exists true, g, []. rewrite app_nil_r. repeat split; [done | constructor |].
    intros g2 dyn2 _. by rewrite app_nil_r.
  - cbn [DoDynamicDependencies_files]. unfold FindNode.
    destruct (g !! FileIO.m_Name file) as [sn|] eqn:Hfind.
    + destruct (Node.IsAFile sn) eqn:Hfile; cbn [negb].
      * destruct (IH g (dyn ++ [sn])) as (ok & g' & added & Hrun & Hsub & Hnodes & Hagain).
        exists ok, g', (sn :: added).
        rewrite Hrun, <- app_assoc. repeat split; [done | |].
        { intros Hok. constructor; [by eapply lookup_weaken | by apply Hnodes]. }
        intros g2 dyn2 Hsub2.
        rewrite (lookup_weaken g g2 _ sn Hfind) by (by etrans).
        rewrite Hfile. cbn [negb].
        by rewrite (Hagain g2 (dyn2 ++ [sn]) Hsub2), <- app_assoc.
      * exists false, g, []. rewrite app_nil_r. repeat split; [done..|].
        intros g2 dyn2 Hsub2.
        rewrite (lookup_weaken g g2 _ sn Hfind Hsub2), Hfile.
        cbn [negb]. by rewrite app_nil_r.
    + set (sn := Node.FileNode (FileIO.m_Name file)).
      destruct (IH (CreateNode g sn) (dyn ++ [sn]))
        as (ok & g' & added & Hrun & Hsub & Hnodes & Hagain).
      assert (CreateNode g sn !! FileIO.m_Name file = Some sn) as Hnew
        by apply lookup_insert_eq.
      exists ok, g', (sn :: added).
      rewrite Hrun, <- app_assoc. repeat split.
      { etrans; [|exact Hsub]. by apply insert_subseteq. }
      { intros Hok. constructor; [by eapply lookup_weaken | by apply Hnodes]. }
      intros g2 dyn2 Hsub2.
      rewrite (lookup_weaken _ g2 _ sn Hnew) by (by etrans).
      cbn [negb Node.IsAFile Node.m_Type sn Node.FileNode].
      by rewrite (Hagain g2 (dyn2 ++ [sn]) Hsub2), <- app_assoc.
Qed.

(** All the listings: the same, for the loop over the static
    dependencies. *)
Lemma DoDynamicDependencies_loop_spec (staticDeps : Dependencies)
    (count : nat) :
  forall (i : nat) (g : NodeGraph) (dyn : Dependencies),
    length (take count (drop i staticDeps)) = count ->
    Forall (fun n => Node.GetType n = Node.DIRECTORY_LIST_NODE)
           (take count (drop i staticDeps)) ->
    exists ok g' added,
      DoDynamicDependencies_loop count i staticDeps g dyn
      = Some (ok, g', dyn ++ added)
      /\ g ⊆ g'
      /\ (ok = true ->
          nodes_of g' added (listedFiles (take count (drop i staticDeps))))
      /\ forall (g2 : NodeGraph) (dyn2 : Dependencies),
           g' ⊆ g2 ->
           DoDynamicDependencies_loop count i staticDeps g2 dyn2
           = Some (ok, g2, dyn2 ++ added).
Proof.
  induction count as [|count IH]; intros i g dyn Hlen Hdl.
  - exists true, g, []. rewrite app_nil_r. repeat split; [done | constructor |].
    intros g2 dyn2 _. cbn. by rewrite app_nil_r.
  - cbn [DoDynamicDependencies_loop].
    destruct (staticDeps !! i) as [n|] eqn:Hi.
    2:{ apply lookup_ge_None in Hi. rewrite drop_ge in Hlen by done.
        by rewrite take_nil in Hlen. }
    rewrite (drop_S _ _ _ Hi) in Hlen, Hdl |- *.
    cbn [take] in Hlen, Hdl |- *.
    apply Forall_cons in Hdl as [Hn Hdl].
    injection Hlen as Hlen.
    destruct (decide _) as [_|?]; [|done].
    destruct (DoDynamicDependencies_files_spec (Node.GetFiles n) g dyn)
      as (ok & g1 & added1 & Hrun1 & Hsub1 & Hnodes1 & Hagain1).
    rewrite Hrun1. destruct ok.
    + destruct (IH (S i) g1 (dyn ++ added1) Hlen Hdl)
        as (ok & g' & added & Hrun & Hsub & Hnodes & Hagain).
      exists ok, g', (added1 ++ added).
      rewrite Hrun, <- app_assoc. repeat split; [by etrans | |].
      { intros Hok. unfold listedFiles. cbn [mbind list_bind].
        apply Forall2_app; [|by apply Hnodes].
        eapply nodes_of_weaken; [exact Hsub | by apply Hnodes1]. }
      intros g2 dyn2 Hsub2.
      rewrite (Hagain1 g2 dyn2) by (by etrans).
      by rewrite (Hagain g2 (dyn2 ++ added1) Hsub2), <- app_assoc.
    + exists false, g1, added1. repeat split; [done..|].
      intros g2 dyn2 Hsub2. by rewrite (Hagain1 g2 dyn2 Hsub2).
Qed.

(** The pass keeps the nodes of the graph under their names. *)
Lemma DoDynamicDependencies_files_graph_ok (files : list FileIO.FileInfo) :
  forall (g : NodeGraph) (dyn : Dependencies),
    graph_ok g -> graph_ok (DoDynamicDependencies_files files g dyn).1.2.
Proof.
  induction files as [|file files IH]; intros g dyn Hg; [done|].
  cbn [DoDynamicDependencies_files]. unfold FindNode.
  destruct (g !! FileIO.m_Name file) as [sn|].
  - destruct (Node.IsAFile sn); cbn [negb]; [by apply IH | done].
  - apply IH. by apply map_Forall_insert_2.
Qed.

Lemma DoDynamicDependencies_loop_graph_ok (staticDeps : Dependencies)
    (count : nat) :
  forall (i : nat) (g g' : NodeGraph) (dyn dyn' : Dependencies) (ok : bool),
    graph_ok g ->
    DoDynamicDependencies_loop count i staticDeps g dyn = Some (ok, g', dyn')
    -> graph_ok g'.
Proof.
  induction count as [|count IH]; intros i g g' dyn dyn' ok Hg;
    cbn [DoDynamicDependencies_loop].
  - by intros [= _ <- _].
  - destruct (staticDeps !! i) as [n|]; [|done].
    destruct (decide _); [|done].
    pose proof (DoDynamicDependencies_files_graph_ok
                  (Node.GetFiles n) g dyn Hg) as Hg1.
    destruct (DoDynamicDependencies_files _ _ _) as [[[] g1] dyn1].
    + by apply IH.
    + by intros [= _ <- _].
Qed.

(** In a graph that stores its nodes under their names, the nodes of
    files are named as the files, and are as different as the files. *)
Lemma nodes_of_names (g : NodeGraph) (deps : Dependencies)
    (files : list FileIO.FileInfo) :
  graph_ok g -> nodes_of g deps files ->
  Node.GetName <$> deps = FileIO.m_Name <$> files.
Proof.
  intros Hg Hnodes. induction Hnodes as [|sn file deps files Hsn _ IH];
    [done|].
  cbn [fmap list_fmap]. f_equal; [|exact IH].
  exact (Hg _ _ Hsn).
Qed.


(* ===================================================================== *)
(** ** DoBuild *)
(* ===================================================================== *)

Lemma events_since_app (w w' : World) (events : list Event) :
  w_trace w' = w_trace w ++ events -> events_since w w' = events.
Proof. unfold events_since. intros ->. apply drop_app_length. Qed.

Lemma EmitCompilationMessage_Some (options : FBuildOptions)
    (this : ExecNode) (args : string) (w : World)
    (executable : Node.t) (inputs : Dependencies) :
  m_StaticDependencies this = executable :: inputs ->
  exists message,
    EmitCompilationMessage options this args w
    = Some (emit (FLOG_OUTPUT message) w).
Proof.
  intros Hdeps. unfold EmitCompilationMessage, GetExecutable.
  rewrite Hdeps. destruct (m_ShowCommandLines options); by eexists.
Qed.

(** The steps every proof about [DoBuild] starts with: the message is
    emitted, the executable is found and the process is spawned. *)
Ltac DoBuild_spawn Hdeps :=
  unfold DoBuild;
  match goal with
  | |- context [EmitCompilationMessage ?o ?t ?a ?w] =>
      let message := fresh "message" in
      destruct (EmitCompilationMessage_Some o t a w _ _ Hdeps)
        as [message ->]
  end;
  unfold GetExecutable; rewrite Hdeps;
  cbn [mbind option_bind lookup list_lookup];
  unfold Process_Spawn, Process_WaitForExit, Process_ReadAllData,
    Process_new.

(** The trace of a finished build, as the old trace followed by the new
    events. *)
Ltac trace_since :=
  cbn [w_trace emit set_files DumpOutput RecordStampFromBuiltFile
       WriteStdOutAsOutput FileStream_Open_WRITE_ONLY
       FileStream_WriteBuffer FileStream_Close];
  rewrite <- ?app_assoc; reflexivity.

(** An event is in a trace that is written out. *)
Ltac in_trace :=
  repeat first [ apply list_elem_of_here | apply list_elem_of_further ].

(** C1.  [DoBuild] reports success if and only if the child process exited
    normally and its exit code is the expected one; in every other case,
    that is when the process did not exit normally or exited normally with
    another code, it reports failure. *)
Theorem DoBuild_success_iff (options : FBuildOptions) (child : Child)
    (this : ExecNode) (w : World)
    (executable : Node.t) (inputs : Dependencies) :
  m_StaticDependencies this = executable :: inputs ->
  exists (result : BuildResult) (this' : ExecNode) (w' : World),
    DoBuild options child this w = Some (result, this', w')
    /\ (result = NODE_RESULT_OK <->
        c_spawn child = SPAWN_OK
        /\ c_exitReason child = Process.PROCESS_EXIT_NORMAL
        /\ c_exitCode child = m_ExecReturnCode this)
    /\ (result = NODE_RESULT_FAILED <->
        ~ (c_spawn child = SPAWN_OK
           /\ c_exitReason child = Process.PROCESS_EXIT_NORMAL
           /\ c_exitCode child = m_ExecReturnCode this)).
Proof.
  intros Hdeps. DoBuild_spawn Hdeps.
  destruct (c_spawn child) eqn:Hspawn; cbn.
  2,3: eexists _, _, _;
       (split; [reflexivity | split; split; intuition congruence]).
  case_decide; [|done].
  destruct (c_exitReason child) eqn:Hreason; cbn.
  1,3,4,5: eexists _, _, _;
           (split; [reflexivity | split; split; intuition congruence]).
  destruct (Z.eqb_spec (c_exitCode child) (m_ExecReturnCode this)); cbn;
    eexists _, _, _;
    (split; [reflexivity | split; split; intuition congruence]).
Qed.

(** C2.  When the process is aborted, whether the abort was seen while
    spawning or the wait for the exit is classified as aborted, [DoBuild]
    fails at once: it returns [NODE_RESULT_FAILED] with the node as it was
    (so the stamp is not updated) and nothing in what it did is output
    handling: no dump of the captured buffers, no file opened or written,
    no stamp recorded.  After an aborted wait, the wait is the last thing
    it did and the files are as the child left them; after an aborted
    spawn the files are untouched. *)
Theorem DoBuild_aborted (options : FBuildOptions) (child : Child)
    (this : ExecNode) (w : World)
    (executable : Node.t) (inputs : Dependencies) :
  m_StaticDependencies this = executable :: inputs ->
  cancelled child ->
  exists w' : World,
    DoBuild options child this w = Some (NODE_RESULT_FAILED, this, w')
    /\ Forall (fun e => is_output_handling e = false) (events_since w w')
    /\ dumped (events_since w w') = []
    /\ (c_spawn child = SPAWN_OK ->
        last (events_since w w') = Some WAIT_FOR_EXIT
        /\ w_files w' = c_writes child (w_files w))
    /\ (c_spawn child = SPAWN_ABORTED -> w_files w' = w_files w).
Proof.
  intros Hdeps [Hspawn|[Hspawn Hreason]]; DoBuild_spawn Hdeps.
  - rewrite Hspawn. cbn. eexists. split; [reflexivity|].
    erewrite events_since_app by trace_since.
    split; [by repeat constructor|]. split; [done|].
    split; [done | by intros _].
  - rewrite Hspawn, Hreason. cbn.
    case_decide; [|done]. cbn.
    eexists. split; [reflexivity|].
    erewrite events_since_app by trace_since.
    split; [by repeat constructor|]. split; [done|].
    split; [by intros _ | done].
Qed.

(** C6.  On a successful build of a node that uses the stdout as its
    output, the file at the node's own path holds exactly the captured
    stdout afterwards, whatever it held before and whatever the child did
    to it, also when the stdout is empty (the file then exists and is
    empty); the file was opened for writing by the build, and no other
    file was touched by the node. *)
Theorem DoBuild_stdout_as_output (options : FBuildOptions) (child : Child)
    (this : ExecNode) (w : World)
    (executable : Node.t) (inputs : Dependencies) :
  m_StaticDependencies this = executable :: inputs ->
  c_spawn child = SPAWN_OK ->
  c_exitReason child = Process.PROCESS_EXIT_NORMAL ->
  c_exitCode child = m_ExecReturnCode this ->
  m_ExecUseStdOutAsOutput this = true ->
  exists (this' : ExecNode) (w' : World),
    DoBuild options child this w = Some (NODE_RESULT_OK, this', w')
    /\ f_data <$> w_files w' !! m_Name this = Some (c_stdout child)
    /\ FILE_OPEN (m_Name this) ∈ events_since w w'
    /\ (c_stdout child <> EmptyString ->
        FILE_WRITE (m_Name this) (c_stdout child) ∈ events_since w w')
    /\ forall path : string,
         path <> m_Name this ->
         w_files w' !! path = c_writes child (w_files w) !! path.
Proof.
  intros Hdeps Hspawn Hreason Hcode Hstdout. DoBuild_spawn Hdeps.
  rewrite Hspawn, Hreason, Hcode, Hstdout. cbn.
  case_decide; [|done]. cbn. rewrite Z.eqb_refl. cbn.
  eexists _, _. split; [reflexivity|].
  unfold WriteStdOutAsOutput.
  destruct (String.eqb_spec (c_stdout child) EmptyString) as [Hempty|Hdata];
    cbn [negb];
    destruct (m_ExecAlwaysShowOutput this || m_ShowCommandOutput options);
    ( (erewrite events_since_app by trace_since);
      cbn; repeat split;
      [ rewrite ?lookup_insert_eq; cbn; rewrite ?lookup_insert_eq; cbn;
        congruence
      | in_trace
      | intros; try done; in_trace
      | intros path Hpath; by rewrite !lookup_insert_ne ] ).
Qed.

(** C5, as amended.  For a process that was spawned and whose wait was not
    classified as aborted, the captured stdout and stderr are dumped, in
    this order, if and only if the build is reported failed or the node
    always shows its output or the options show all command output;
    otherwise nothing is dumped.  For a process that could not be spawned
    or was aborted nothing is dumped, whatever the flags. *)
Theorem DoBuild_dumps_output_iff (options : FBuildOptions) (child : Child)
    (this : ExecNode) (w : World)
    (executable : Node.t) (inputs : Dependencies) :
  m_StaticDependencies this = executable :: inputs ->
  exists (result : BuildResult) (this' : ExecNode) (w' : World),
    DoBuild options child this w = Some (result, this', w')
    /\ (c_spawn child = SPAWN_OK ->
        c_exitReason child <> Process.PROCESS_EXIT_ABORTED ->
        (dumped (events_since w w') = [c_stdout child; c_stderr child]
         <-> result = NODE_RESULT_FAILED
             \/ m_ExecAlwaysShowOutput this = true
             \/ m_ShowCommandOutput options = true)
        /\ (dumped (events_since w w') = []
            <-> ~ (result = NODE_RESULT_FAILED
                   \/ m_ExecAlwaysShowOutput this = true
                   \/ m_ShowCommandOutput options = true)))
    /\ (c_spawn child <> SPAWN_OK
        \/ c_exitReason child = Process.PROCESS_EXIT_ABORTED ->
        dumped (events_since w w') = []).
Proof.
  intros Hdeps. DoBuild_spawn Hdeps.
  destruct (c_spawn child) eqn:Hspawn; cbn.
  2,3: eexists _, _, _; (split; [reflexivity|]);
       (erewrite events_since_app by trace_since);
       split; [done | by intros _].
  case_decide; [|done].
  destruct (c_exitReason child) eqn:Hreason; cbn.
  3: { eexists _, _, _. split; [reflexivity|].
       erewrite events_since_app by trace_since.
       split; [done | by intros _]. }
  2: destruct (Z.eqb_spec (c_exitCode child) (m_ExecReturnCode this)); cbn.
  2: destruct (m_ExecUseStdOutAsOutput this); cbn;
     unfold WriteStdOutAsOutput;
     destruct (negb (String.eqb (c_stdout child) EmptyString)).
  all: destruct (m_ExecAlwaysShowOutput this) eqn:Halways;
       destruct (m_ShowCommandOutput options) eqn:Hshow; cbn;
       eexists _, _, _; (split; [reflexivity|]);
       (erewrite events_since_app by trace_since);
       (split; [intros _ _; cbn; split; split; intuition congruence
               | intros [?|?]; congruence]).
Qed.

(* ===================================================================== *)
(** ** Initialize: the static pass *)
(* ===================================================================== *)

Section StaticPassFacts.

Variable resolve : NodeGraph -> string -> list Node.t.
Variable InitializePreBuildDependencies :
  NodeGraph -> list string -> bool * NodeGraph * Dependencies.
Variable GetFileNodes :
  NodeGraph -> list string -> bool * NodeGraph * Dependencies.
Variable GetDirectoryListNodeList :
  NodeGraph -> DirectoryListSpec -> bool * NodeGraph * Dependencies.

Let Init :=
  Initialize resolve InitializePreBuildDependencies GetFileNodes
             GetDirectoryListNodeList.

(** [GetFileNode] succeeds exactly on a reference that names one node, a
    file, and then adds that node. *)
Lemma GetFileNode_true (nodeGraph : NodeGraph) (file : string)
    (nodes nodes' : Dependencies) :
  GetFileNode resolve nodeGraph file nodes = (true, nodes') ->
  exists n, resolve nodeGraph file = [n]
            /\ Node.IsAFile n = true /\ nodes' = nodes ++ [n].
Proof.
  unfold GetFileNode.
  destruct (resolve nodeGraph file) as [|n [|n' ns]]; [done| |done].
  destruct (Node.IsAFile n) eqn:Hfile; [|done].
  intros [= <-]. by exists n.
Qed.

Lemma GetFileNode_not_one (nodeGraph : NodeGraph) (file : string)
    (nodes : Dependencies) :
  length (resolve nodeGraph file) <> 1%nat ->
  GetFileNode resolve nodeGraph file nodes = (false, nodes).
Proof.
  unfold GetFileNode.
  by destruct (resolve nodeGraph file) as [|n [|n' ns]].
Qed.

(** What a successful [Initialize] did. *)
Lemma Initialize_true (nodeGraph nodeGraph' : NodeGraph)
    (this this' : ExecNode) :
  Init nodeGraph this = Some (true, nodeGraph', this') ->
  exists (g0 g1 : NodeGraph) (preBuild : Dependencies)
         (executable : Node.t) (inputFiles dirLists : Dependencies),
    InitializePreBuildDependencies nodeGraph
      (m_PreBuildDependencyNames this) = (true, g0, preBuild)
    /\ resolve g0 (m_ExecExecutable this) = [executable]
    /\ Node.IsAFile executable = true
    /\ GetFileNodes g0 (m_ExecInput this) = (true, g1, inputFiles)
    /\ GetDirectoryListNodeList g1
         {| dl_paths := m_ExecInputPath this;
            dl_excludePaths := m_ExecInputExcludePath this;
            dl_filesToExclude := m_ExecInputExcludedFiles this;
            dl_excludePatterns := m_ExecInputExcludePattern this;
            dl_recurse := m_ExecInputPathRecurse this;
            dl_includeReadOnlyStatusInHash := false;
            dl_includeDirs := false;
            dl_patterns := m_ExecInputPattern this |}
       = (true, nodeGraph', dirLists)
    /\ length dirLists = length (m_ExecInputPath this)
    /\ this' =
       set_StaticDependencies
         (m_StaticDependencies this ++ executable :: inputFiles ++ dirLists)
         (set_NumExecInputFiles
            (Z.of_nat (length inputFiles) mod 2 ^ 32)
            (set_PreBuildDependencies preBuild this)).
Proof.
  unfold Init, Initialize.
  destruct (InitializePreBuildDependencies _ _) as [[[] g0] preBuild];
    cbn [negb]; [|done].
  destruct (GetFileNode _ _ _ _) as [[] executable] eqn:Hexe;
    cbn [negb]; [|done].
  apply GetFileNode_true in Hexe as (n & Hres & Hfile & ->).
  cbn [app length Nat.eqb negb].
  destruct (GetFileNodes _ _) as [[[] g1] inputFiles] eqn:Hfiles;
    cbn [negb]; [|done].
  destruct (GetDirectoryListNodeList _ _) as [[[] g2] dirLists] eqn:Hdirs;
    cbn [negb]; [|done].
  destruct (Nat.eqb_spec (length dirLists)
              (length (m_ExecInputPath
                 (set_NumExecInputFiles
                    (Z.of_nat (length inputFiles) mod 2 ^ 32)
                    (set_PreBuildDependencies preBuild this)))))
    as [Hlen|]; cbn [negb]; [|done].
  intros [= <- <-].
  exists g0, g1, preBuild, n, inputFiles, dirLists.
  repeat split; try done.
  cbn [set_StaticDependencies set_NumExecInputFiles set_PreBuildDependencies
       m_StaticDependencies].
  by rewrite <- !app_assoc.
Qed.

(** With this [GetFileNode] the assertion on the executable holds: the
    only [ASSERT] of [Initialize] that can fail is the one on the number
    of directory lists. *)
Lemma Initialize_assert (nodeGraph : NodeGraph) (this : ExecNode) :
  Init nodeGraph this = None ->
  exists (g : NodeGraph) (dirs : DirectoryListSpec)
         (g' : NodeGraph) (dirLists : Dependencies),
    GetDirectoryListNodeList g dirs = (true, g', dirLists)
    /\ length dirLists <> length (dl_paths dirs).
Proof.
  unfold Init, Initialize.
  destruct (InitializePreBuildDependencies _ _) as [[[] g0] preBuild];
    cbn [negb]; [|done].
  destruct (GetFileNode _ _ _ _) as [[] executable] eqn:Hexe;
    cbn [negb]; [|done].
  apply GetFileNode_true in Hexe as (n & Hres & Hfile & ->).
  cbn [app length Nat.eqb negb].
  destruct (GetFileNodes _ _) as [[[] g1] inputFiles];
    cbn [negb]; [|done].
  destruct (GetDirectoryListNodeList _ _) as [[[] g2] dirLists] eqn:Hdirs;
    cbn [negb]; [|done].
  destruct (Nat.eqb_spec (length dirLists)
              (length (m_ExecInputPath
                 (set_NumExecInputFiles
                    (Z.of_nat (length inputFiles) mod 2 ^ 32)
                    (set_PreBuildDependencies preBuild this)))))
    as [|Hlen]; cbn [negb]; [done|].
  intros _. by eexists _, _, _, _.
Qed.

(** C8.  In the static pass the executable reference resolves to exactly
    one file node: whenever [Initialize] succeeds, the reference names
    exactly one node, that node is a file, and it is the dependency the
    pass adds first.  If the reference does not name exactly one node,
    [Initialize] returns false and no static dependency is recorded, so
    the node has no executable to spawn. *)
Theorem Initialize_executable (nodeGraph g0 : NodeGraph) (this : ExecNode)
    (preBuild : Dependencies) :
  InitializePreBuildDependencies nodeGraph (m_PreBuildDependencyNames this)
  = (true, g0, preBuild) ->
  (forall (nodeGraph' : NodeGraph) (this' : ExecNode),
      Init nodeGraph this = Some (true, nodeGraph', this') ->
      exists (executable : Node.t) (others : Dependencies),
        resolve g0 (m_ExecExecutable this) = [executable]
        /\ Node.IsAFile executable = true
        /\ m_StaticDependencies this'
           = m_StaticDependencies this ++ executable :: others)
  /\ (length (resolve g0 (m_ExecExecutable this)) <> 1%nat ->
      exists this' : ExecNode,
        Init nodeGraph this = Some (false, g0, this')
        /\ m_StaticDependencies this' = m_StaticDependencies this
        /\ (m_StaticDependencies this = [] -> GetExecutable this' = None)).
Proof.
  intros Hpre. split.
  - intros g' this' Hinit.
    apply Initialize_true in Hinit
      as (g0' & g1 & pre' & exe & files & dirs
          & Hpre' & Hres & Hfile & _ & _ & _ & ->).
    rewrite Hpre in Hpre'. injection Hpre' as <- <-.
    by exists exe, (files ++ dirs).
  - intros Hnot. unfold Init, Initialize. rewrite Hpre. cbn [negb].
    rewrite GetFileNode_not_one by done. cbn [negb].
    eexists. split; [reflexivity|]. split; [done|].
    unfold GetExecutable. cbn. by intros ->.
Qed.

End StaticPassFacts.

(* ===================================================================== *)
(** ** The inputs of an initialized node *)
(* ===================================================================== *)

(** C10.  The expansion of the "all inputs" marker runs over the static
    dependencies from index 1: for every node it is the names the
    dependencies after the first stand for (an input file its name, a
    directory list its files), in dependency order, joined by single
    spaces; whatever node sits at index 0 has no part in it; and after
    [Initialize] the node at index 0 is the executable, followed by the
    input files and then the directory lists, so the expansion is the
    input files and then the contents of the listings. *)
Theorem GetInputFiles_skips_executable :
  (forall (this : ExecNode) (fullArgs pre post : string),
      GetInputFiles this fullArgs pre post
      = fullArgs
        +:+ joined (wrapped pre post
              <$> expandedInputs (drop 1 (m_StaticDependencies this))))
  /\ (forall (this : ExecNode) (executable : Node.t) (inputs : Dependencies)
             (fullArgs pre post : string),
         GetInputFiles
           (set_StaticDependencies (executable :: inputs) this)
           fullArgs pre post
         = fullArgs +:+ joined (wrapped pre post <$> expandedInputs inputs))
  /\ (forall resolve InitializePreBuildDependencies GetFileNodes
             GetDirectoryListNodeList
             (nodeGraph nodeGraph' : NodeGraph) (this this' : ExecNode),
         m_StaticDependencies this = [] ->
         Initialize resolve InitializePreBuildDependencies GetFileNodes
                    GetDirectoryListNodeList nodeGraph this
         = Some (true, nodeGraph', this') ->
         exists (executable : Node.t) (inputFiles dirLists : Dependencies),
           resolve
             (InitializePreBuildDependencies nodeGraph
                (m_PreBuildDependencyNames this)).1.2
             (m_ExecExecutable this) = [executable]
           /\ m_StaticDependencies this'
              = executable :: inputFiles ++ dirLists
           /\ m_NumExecInputFiles this'
              = Z.of_nat (length inputFiles) mod 2 ^ 32
           /\ length dirLists = length (m_ExecInputPath this')
           /\ forall fullArgs pre post : string,
                GetInputFiles this' fullArgs pre post
                = fullArgs
                  +:+ joined (wrapped pre post
                        <$> expandedInputs inputFiles
                            ++ expandedInputs dirLists)).
Proof.
  split; [|split].
  - apply GetInputFiles_joined.
  - intros. by rewrite GetInputFiles_joined.
  - intros resolve IPD GFN GDL g g' this this' Hfresh Hinit.
    apply Initialize_true in Hinit
      as (g0 & g1 & pre' & exe & files & dirs
          & Hpre & Hres & Hfile & _ & _ & Hlen & ->).
    exists exe, files, dirs. rewrite Hpre, Hfresh.
    repeat split; try done.
    intros fullArgs pre post. rewrite GetInputFiles_joined.
    cbn [set_StaticDependencies m_StaticDependencies app drop].
    rewrite drop_0. unfold expandedInputs. by rewrite bind_app.
Qed.

(* ===================================================================== *)
(** ** The theorems at the example inputs *)
(* ===================================================================== *)

(** C1 at the example node, for a child that exits normally with the
    expected code. *)
Lemma DoBuild_success_iff_witness :
  m_StaticDependencies example_node
  = Node.FileNode "cc" :: [Node.FileNode "a.c"; Node.FileNode "b.c"]
  /\ exists (result : BuildResult) (this' : ExecNode) (w' : World),
       DoBuild example_options (example_child Process.PROCESS_EXIT_NORMAL 0)
               example_node example_world
       = Some (result, this', w')
       /\ (result = NODE_RESULT_OK <->
           c_spawn (example_child Process.PROCESS_EXIT_NORMAL 0) = SPAWN_OK
           /\ c_exitReason (example_child Process.PROCESS_EXIT_NORMAL 0)
              = Process.PROCESS_EXIT_NORMAL
           /\ c_exitCode (example_child Process.PROCESS_EXIT_NORMAL 0)
              = m_ExecReturnCode example_node)
       /\ (result = NODE_RESULT_FAILED <->
           ~ (c_spawn (example_child Process.PROCESS_EXIT_NORMAL 0)
              = SPAWN_OK
              /\ c_exitReason (example_child Process.PROCESS_EXIT_NORMAL 0)
                 = Process.PROCESS_EXIT_NORMAL
              /\ c_exitCode (example_child Process.PROCESS_EXIT_NORMAL 0)
                 = m_ExecReturnCode example_node)).
Proof.
  split; [reflexivity|].
  apply (DoBuild_success_iff example_options
           (example_child Process.PROCESS_EXIT_NORMAL 0)
           example_node example_world
           (Node.FileNode "cc")
           [Node.FileNode "a.c"; Node.FileNode "b.c"]).
  reflexivity.
Defined.

(** C2 at the example node that always shows its output, for an aborted
    child. *)
Lemma DoBuild_aborted_witness :
  m_StaticDependencies example_node_show
  = Node.FileNode "cc" :: [Node.FileNode "a.c"; Node.FileNode "b.c"]
  /\ cancelled (example_child Process.PROCESS_EXIT_ABORTED 0)
  /\ exists w' : World,
       DoBuild example_options (example_child Process.PROCESS_EXIT_ABORTED 0)
               example_node_show example_world
       = Some (NODE_RESULT_FAILED, example_node_show, w')
       /\ Forall (fun e => is_output_handling e = false)
                 (events_since example_world w')
       /\ dumped (events_since example_world w') = []
       /\ (c_spawn (example_child Process.PROCESS_EXIT_ABORTED 0) = SPAWN_OK ->
           last (events_since example_world w') = Some WAIT_FOR_EXIT
           /\ w_files w'
              = c_writes (example_child Process.PROCESS_EXIT_ABORTED 0)
                         (w_files example_world))
       /\ (c_spawn (example_child Process.PROCESS_EXIT_ABORTED 0)
           = SPAWN_ABORTED ->
           w_files w' = w_files example_world).
Proof.
  assert (cancelled (example_child Process.PROCESS_EXIT_ABORTED 0))
    as Hcancelled.
  { right. split; reflexivity. }
  split; [reflexivity|]. split; [exact Hcancelled|].
  apply (DoBuild_aborted example_options
           (example_child Process.PROCESS_EXIT_ABORTED 0)
           example_node_show example_world
           (Node.FileNode "cc")
           [Node.FileNode "a.c"; Node.FileNode "b.c"] eq_refl Hcancelled).
Defined.

(** C3 at the example nodes. *)
Lemma GetFullArgs_templating_witness :
  m_ExecArguments example_node = "-o %2 %1"
  /\ m_Name example_node = "out.o"
  /\ m_StaticDependencies example_node
     = [Node.FileNode "cc"; Node.FileNode "a.c"; Node.FileNode "b.c"]
  /\ GetFullArgs example_node EmptyString = "-o out.o a.c b.c "
  /\ m_ExecArguments example_node_quoted = quote +:+ "%1" +:+ quote
  /\ m_StaticDependencies example_node_quoted
     = [Node.FileNode "cc"; Node.FileNode "a.c"; Node.FileNode "b.c"]
  /\ GetFullArgs example_node_quoted EmptyString
     = quote +:+ "a.c" +:+ quote +:+ " "
       +:+ quote +:+ "b.c" +:+ quote +:+ " ".
Proof.
  split; [reflexivity|]. split; [reflexivity|]. split; [reflexivity|].
  split.
  { apply (proj1 GetFullArgs_templating example_node (Node.FileNode "cc"));
      reflexivity. }
  split; [reflexivity|]. split; [reflexivity|].
  apply (proj2 (proj2 GetFullArgs_templating) example_node_quoted
           (Node.FileNode "cc"));
    reflexivity.
Defined.

(** C6 at the example node that uses the stdout as its output, in a world
    where [out.o] holds something else. *)
Lemma DoBuild_stdout_as_output_witness :
  m_StaticDependencies example_node_stdout
  = Node.FileNode "cc" :: [Node.FileNode "a.c"; Node.FileNode "b.c"]
  /\ c_spawn (example_child Process.PROCESS_EXIT_NORMAL 0) = SPAWN_OK
  /\ c_exitReason (example_child Process.PROCESS_EXIT_NORMAL 0)
     = Process.PROCESS_EXIT_NORMAL
  /\ c_exitCode (example_child Process.PROCESS_EXIT_NORMAL 0)
     = m_ExecReturnCode example_node_stdout
  /\ m_ExecUseStdOutAsOutput example_node_stdout = true
  /\ f_data <$> w_files example_world !! m_Name example_node_stdout
     = Some "stale"
  /\ exists (this' : ExecNode) (w' : World),
       DoBuild example_options (example_child Process.PROCESS_EXIT_NORMAL 0)
               example_node_stdout example_world
       = Some (NODE_RESULT_OK, this', w')
       /\ f_data <$> w_files w' !! m_Name example_node_stdout
          = Some (c_stdout (example_child Process.PROCESS_EXIT_NORMAL 0))
       /\ FILE_OPEN (m_Name example_node_stdout)
          ∈ events_since example_world w'
       /\ (c_stdout (example_child Process.PROCESS_EXIT_NORMAL 0)
           <> EmptyString ->
           FILE_WRITE (m_Name example_node_stdout)
                      (c_stdout (example_child Process.PROCESS_EXIT_NORMAL 0))
           ∈ events_since example_world w')
       /\ forall path : string,
            path <> m_Name example_node_stdout ->
            w_files w' !! path
            = c_writes (example_child Process.PROCESS_EXIT_NORMAL 0)
                       (w_files example_world) !! path.
Proof.
  do 5 (split; [reflexivity|]). split; [by vm_compute|].
  apply (DoBuild_stdout_as_output example_options
           (example_child Process.PROCESS_EXIT_NORMAL 0)
           example_node_stdout example_world
           (Node.FileNode "cc")
           [Node.FileNode "a.c"; Node.FileNode "b.c"]);
    reflexivity.
Defined.

(** C5 as stated fails: for a node that always shows its output and a
    child that was aborted, the build is reported failed and the flag is
    set, yet nothing is dumped. *)
Lemma DoBuild_dumps_output_iff_counterexample :
  exists w' : World,
    DoBuild example_options (example_child Process.PROCESS_EXIT_ABORTED 0)
            example_node_show example_world
    = Some (NODE_RESULT_FAILED, example_node_show, w')
    /\ m_ExecAlwaysShowOutput example_node_show = true
    /\ dumped (events_since example_world w') = []
    /\ ~ (dumped (events_since example_world w')
          = [c_stdout (example_child Process.PROCESS_EXIT_ABORTED 0);
             c_stderr (example_child Process.PROCESS_EXIT_ABORTED 0)]
          <-> NODE_RESULT_FAILED = NODE_RESULT_FAILED
              \/ m_ExecAlwaysShowOutput example_node_show = true
              \/ m_ShowCommandOutput example_options = true).
Proof.
  eexists. split; [reflexivity|]. split; [reflexivity|].
  split; [reflexivity|].
  intros [_ Hdump]. by specialize (Hdump (or_introl eq_refl)).
Qed.

(** C5, as amended, at the example node that always shows its output, for
    a child that exits normally with the expected code. *)
Lemma DoBuild_dumps_output_iff_witness :
  m_StaticDependencies example_node_show
  = Node.FileNode "cc" :: [Node.FileNode "a.c"; Node.FileNode "b.c"]
  /\ exists (result : BuildResult) (this' : ExecNode) (w' : World),
       DoBuild example_options (example_child Process.PROCESS_EXIT_NORMAL 0)
               example_node_show example_world
       = Some (result, this', w')
       /\ (c_spawn (example_child Process.PROCESS_EXIT_NORMAL 0) = SPAWN_OK ->
           c_exitReason (example_child Process.PROCESS_EXIT_NORMAL 0)
           <> Process.PROCESS_EXIT_ABORTED ->
           (dumped (events_since example_world w')
            = [c_stdout (example_child Process.PROCESS_EXIT_NORMAL 0);
               c_stderr (example_child Process.PROCESS_EXIT_NORMAL 0)]
            <-> result = NODE_RESULT_FAILED
                \/ m_ExecAlwaysShowOutput example_node_show = true
                \/ m_ShowCommandOutput example_options = true)
           /\ (dumped (events_since example_world w') = []
               <-> ~ (result = NODE_RESULT_FAILED
                      \/ m_ExecAlwaysShowOutput example_node_show = true
                      \/ m_ShowCommandOutput example_options = true)))
       /\ (c_spawn (example_child Process.PROCESS_EXIT_NORMAL 0) <> SPAWN_OK
           \/ c_exitReason (example_child Process.PROCESS_EXIT_NORMAL 0)
              = Process.PROCESS_EXIT_ABORTED ->
           dumped (events_since example_world w') = []).
Proof.
  split; [reflexivity|].
  apply (DoBuild_dumps_output_iff example_options
           (example_child Process.PROCESS_EXIT_NORMAL 0)
           example_node_show example_world
           (Node.FileNode "cc")
           [Node.FileNode "a.c"; Node.FileNode "b.c"]).
  reflexivity.
Defined.

(** C8 at the example node before the static pass: with a reference that
    names one file the pass succeeds and the executable comes first; with
    a reference that names two nodes the pass returns false. *)
Lemma Initialize_executable_witness :
  example_InitializePreBuildDependencies example_graph
    (m_PreBuildDependencyNames example_node_fresh)
  = (true, example_graph, [])
  /\ Initialize example_resolve example_InitializePreBuildDependencies
       example_GetFileNodes example_GetDirectoryListNodeList
       example_graph example_node_fresh
     = Some (true, example_graph, example_node_dirs)
  /\ (exists (executable : Node.t) (others : Dependencies),
         example_resolve example_graph (m_ExecExecutable example_node_fresh)
         = [executable]
         /\ Node.IsAFile executable = true
         /\ m_StaticDependencies example_node_dirs
            = m_StaticDependencies example_node_fresh
              ++ executable :: others)
  /\ length (example_resolve_two example_graph
               (m_ExecExecutable example_node_fresh)) <> 1%nat
  /\ (exists this' : ExecNode,
         Initialize example_resolve_two
           example_InitializePreBuildDependencies
           example_GetFileNodes example_GetDirectoryListNodeList
           example_graph example_node_fresh
         = Some (false, example_graph, this')
         /\ m_StaticDependencies this'
            = m_StaticDependencies example_node_fresh
         /\ (m_StaticDependencies example_node_fresh = [] ->
             GetExecutable this' = None)).
Proof.
  assert (length (example_resolve_two example_graph
                    (m_ExecExecutable example_node_fresh)) <> 1%nat)
    as Htwo by (cbn; lia).
  split; [reflexivity|]. split; [reflexivity|]. split.
  { apply (proj1 (Initialize_executable example_resolve
                    example_InitializePreBuildDependencies
                    example_GetFileNodes example_GetDirectoryListNodeList
                    example_graph example_graph example_node_fresh []
                    eq_refl)
                 example_graph example_node_dirs).
    reflexivity. }
  split; [exact Htwo|].
  apply (proj2 (Initialize_executable example_resolve_two
                  example_InitializePreBuildDependencies
                  example_GetFileNodes example_GetDirectoryListNodeList
                  example_graph example_graph example_node_fresh []
                  eq_refl)).
  exact Htwo.
Defined.

(** C10 at the example node before the static pass. *)
Lemma GetInputFiles_skips_executable_witness :
  m_StaticDependencies example_node_fresh = []
  /\ Initialize example_resolve example_InitializePreBuildDependencies
       example_GetFileNodes example_GetDirectoryListNodeList
       example_graph example_node_fresh
     = Some (true, example_graph, example_node_dirs)
  /\ (exists (executable : Node.t) (inputFiles dirLists : Dependencies),
         example_resolve
           (example_InitializePreBuildDependencies example_graph
              (m_PreBuildDependencyNames example_node_fresh)).1.2
           (m_ExecExecutable example_node_fresh) = [executable]
         /\ m_StaticDependencies example_node_dirs
            = executable :: inputFiles ++ dirLists
         /\ m_NumExecInputFiles example_node_dirs
            = Z.of_nat (length inputFiles) mod 2 ^ 32
         /\ length dirLists = length (m_ExecInputPath example_node_dirs)
         /\ forall fullArgs pre post : string,
              GetInputFiles example_node_dirs fullArgs pre post
              = fullArgs
                +:+ joined (wrapped pre post
                      <$> expandedInputs inputFiles
                          ++ expandedInputs dirLists))
  /\ GetFullArgs example_node_dirs EmptyString
     = "-o out.o a.c b.c src/x.c src/y.c ".
Proof.
  split; [reflexivity|]. split; [reflexivity|]. split.
  { apply (proj2 (proj2 GetInputFiles_skips_executable)
             example_resolve example_InitializePreBuildDependencies
             example_GetFileNodes example_GetDirectoryListNodeList
             example_graph example_graph
             example_node_fresh example_node_dirs);
      reflexivity. }
  reflexivity.
Defined.

(* ===================================================================== *)
(** ** Runs of the model *)
(* ===================================================================== *)

(** The dynamic pass on the example: one node found, one created. *)
Example DoDynamicDependencies_example :
  (fun r => (r.1.1, m_DynamicDependencies r.2))
    <$> DoDynamicDependencies example_graph example_node_dirs
  = Some (true, [Node.FileNode "src/x.c"; Node.FileNode "src/y.c"]).
Proof. by vm_compute. Qed.

(** The dynamic pass fails on a listed path that names a node that is not
    a file, keeping what it had added. *)
Example DoDynamicDependencies_example_not_a_file :
  (fun r => (r.1.1, m_DynamicDependencies r.2))
    <$> DoDynamicDependencies
          (<["src/y.c" := Node.mk "src/y.c" Node.ALIAS_NODE []]> example_graph)
          example_node_dirs
  = Some (false, [Node.FileNode "src/x.c"]).
Proof. by vm_compute. Qed.

(** A successful build that uses the stdout as its output: what happens,
    in order, the file written and the stamp taken from it. *)
Example DoBuild_example_stdout :
  (fun r => (r.1.1, m_Stamp r.1.2, w_trace r.2, w_files r.2 !! "out.o"))
    <$> DoBuild example_options
          (example_child Process.PROCESS_EXIT_NORMAL 0)
          example_node_stdout example_world
  = Some (NODE_RESULT_OK, 42,
          [FLOG_OUTPUT EmptyString;
           SPAWN "cc" "-o out.o a.c b.c " None None;
           READ_ALL_DATA 0 0;
           WAIT_FOR_EXIT;
           FILE_OPEN "out.o";
           FILE_WRITE "out.o" "hello";
           FILE_CLOSE "out.o";
           RECORD_STAMP "out.o"],
          Some (mkFile "hello" 42)).
Proof. by vm_compute. Qed.

(** The scenario of the specification: the tool exits with code 1 where 0
    is expected; the build fails and the output is dumped. *)
Example DoBuild_example_exit_code :
  (fun r => (r.1.1, w_trace r.2))
    <$> DoBuild example_options
          (example_child Process.PROCESS_EXIT_NORMAL 1)
          example_node example_world
  = Some (NODE_RESULT_FAILED,
          [FLOG_OUTPUT EmptyString;
           SPAWN "cc" "-o out.o a.c b.c " None None;
           READ_ALL_DATA 0 0;
           WAIT_FOR_EXIT;
           DUMP_OUTPUT "hello";
           DUMP_OUTPUT "oops";
           ERROR_ExecutionFailed (ERROR_STR 1) "out.o"]).
Proof. by vm_compute. Qed.

(** A timeout is reported with the name of the exit reason. *)
Example DoBuild_example_timeout :
  (fun r => (r.1.1, last (w_trace r.2)))
    <$> DoBuild example_options
          (example_child Process.PROCESS_EXIT_TIMEOUT 0)
          example_node example_world
  = Some (NODE_RESULT_FAILED,
          Some (ERROR_ExecutionFailed (REASON_STR "Process Timeout")
                                      "out.o")).
Proof. by vm_compute. Qed.

(* ===================================================================== *)
(** ** Further properties: the exit reasons *)
(* ===================================================================== *)

(** X1.  [ExitReasonToString] answers "Unknown" exactly for the values that
    are no exit reason: the [default] of the switch is taken for every value
    but the five enumerators, and for none of these. *)
Theorem ExitReasonToString_Unknown_iff (exitReason : Z) :
  Process.ExitReasonToString exitReason = "Unknown"
  <-> forall r : Process.ExitReason, exitReason <> Process.to_uint8 r.
Proof.
  split.
  - intros Hname r ->. by destruct r.
  - apply ExitReasonToString_default.
Qed.

(** X2.  The name tells the exit reason: two exit reasons have the same
    name only if they are the same reason, and every enumerator is a value
    of a [uint8_t]. *)
Theorem ExitReasonToString_tells_reason (r1 r2 : Process.ExitReason) :
  (Process.ExitReasonToString (Process.to_uint8 r1)
   = Process.ExitReasonToString (Process.to_uint8 r2) <-> r1 = r2)
  /\ 0 <= Process.to_uint8 r1 < 2 ^ 8.
Proof.
  split; [split|].
  - apply ExitReasonToString_inj.
  - by intros ->.
  - destruct r1; cbn; lia.
Qed.

(* ===================================================================== *)
(** ** Further properties: the argument template *)
(* ===================================================================== *)

(** Two strings that end with different characters: the first does not
    end with the second. *)
Lemma EndsWith_last_neq (s marker : string) (c d : ascii) :
  c <> d ->
  EndsWith (s +:+ String c EmptyString) (marker +:+ String d EmptyString)
  = false.
Proof.
  intros Hcd. destruct (EndsWith _ _) eqn:Hends; [|done].
  apply EndsWith_inv in Hends as [s0 Hs0]. destruct Hcd.
  apply (append_last_inj s (s0 +:+ marker)).
  rewrite append_assoc. exact Hs0.
Qed.

(** Equal strings with tails of the same length have the same tails. *)
Lemma append_inj_tail (s1 s2 t1 t2 : string) :
  s1 +:+ t1 = s2 +:+ t2 -> GetLength t1 = GetLength t2 -> t1 = t2.
Proof.
  intros Heq Hlen.
  assert (GetLength s1 = GetLength s2) as Hs.
  { apply (f_equal GetLength) in Heq. rewrite !length_append in Heq. lia. }
  revert s2 Heq Hs. induction s1 as [|a s1 IH]; intros [|b s2] Heq Hs;
    simpl in *; try done.
  injection Heq as _ Heq. injection Hs as Hs. by eapply IH.
Qed.

(** A string does not end with another marker of the same length as the
    one it ends with. *)
Lemma EndsWith_other_marker (s marker marker' : string) :
  GetLength marker = GetLength marker' -> marker <> marker' ->
  EndsWith (s +:+ marker) marker' = false.
Proof.
  intros Hlen Hne. destruct (EndsWith _ _) eqn:Hends; [|done].
  apply EndsWith_inv in Hends as [s0 Hs0]. destruct Hne.
  by eapply append_inj_tail.
Qed.

Lemma wrapped_no_post (pre : string) (names : list string) :
  wrapped pre EmptyString <$> names = (fun name => pre +:+ name) <$> names.
Proof.
  apply list_fmap_ext. intros _ name _. unfold wrapped.
  by rewrite append_nil_r.
Qed.

(** X3.  The token [pre%1], as in [/Option:%1 -> /Option:A /Option:B]: the
    inputs, each after the prefix, with one space between an entry and the
    next, and the space that closes the token; also when there is no
    prefix. *)
Theorem GetFullArgs_token_inputs (this : ExecNode) (fullArgs pre : string) :
  GetFullArgs_token this fullArgs (pre +:+ "%1")
  = (fullArgs
     +:+ joined ((fun name => pre +:+ name)
                   <$> expandedInputs (drop 1 (m_StaticDependencies this))))
    +:+ " ".
Proof.
  unfold GetFullArgs_token.
  rewrite (EndsWith_append pre "%1"), GetInputFiles_joined.
  rewrite length_append.
  destruct pre as [|c pre].
  - cbn [String.length Nat.add Nat.ltb Nat.leb].
    by rewrite wrapped_no_post.
  - destruct (Nat.ltb_spec 2 (GetLength (String c pre) + GetLength "%1"))
      as [_|Hlt]; [|cbn in Hlt; lia].
    rewrite (dropEnd_append (String c pre) "%1" : dropEnd 2 _ = _).
    by rewrite wrapped_no_post.
Qed.

(** X4.  The output markers, as in [/Option:%2 -> /Option:A] and
    [/Option:"%2" -> /Option:"A"]: the token [pre%2] becomes the prefix and
    the node's name, the token [pre"%2"] the prefix and the name between
    the quotes, each once and however many inputs there are. *)
Theorem GetFullArgs_token_output (this : ExecNode) (fullArgs pre : string) :
  GetFullArgs_token this fullArgs (pre +:+ "%2")
  = ((fullArgs +:+ pre) +:+ m_Name this) +:+ " "
  /\ GetFullArgs_token this fullArgs (pre +:+ quote +:+ "%2" +:+ quote)
     = ((((fullArgs +:+ pre) +:+ quote) +:+ m_Name this) +:+ quote) +:+ " ".
Proof.
  split; unfold GetFullArgs_token.
  - rewrite (EndsWith_other_marker pre "%2" "%1") by done.
    assert (EndsWith (pre +:+ "%2") (quote +:+ "%1" +:+ quote) = false)
      as ->.
    { change (pre +:+ "%2") with (pre +:+ "%" +:+ "2").
      rewrite <- (append_assoc pre "%" "2").
      by apply (EndsWith_last_neq _ (quote +:+ "%1") "2" quote_char). }
    rewrite (EndsWith_append pre "%2"), length_append.
    destruct pre as [|c pre].
    + cbn [String.length Nat.add Nat.ltb Nat.leb].
      by rewrite append_nil_r.
    + destruct (Nat.ltb_spec 2 (GetLength (String c pre) + GetLength "%2"))
        as [_|Hlt]; [|cbn in Hlt; lia].
      by rewrite (dropEnd_append (String c pre) "%2" : dropEnd 2 _ = _).
  - assert (EndsWith (pre +:+ quote +:+ "%2" +:+ quote) "%1" = false)
      as ->.
    { rewrite <- (append_assoc pre quote).
      rewrite <- (append_assoc (pre +:+ quote) "%2").
      by apply (EndsWith_quote_last _ "%" "1"). }
    rewrite (EndsWith_other_marker pre (quote +:+ "%2" +:+ quote)
               (quote +:+ "%1" +:+ quote)) by done.
    assert (EndsWith (pre +:+ quote +:+ "%2" +:+ quote) "%2" = false)
      as ->.
    { rewrite <- (append_assoc pre quote).
      rewrite <- (append_assoc (pre +:+ quote) "%2").
      by apply (EndsWith_quote_last _ "%" "2"). }
    rewrite (EndsWith_append pre (quote +:+ "%2" +:+ quote)).
    rewrite <- (append_assoc pre quote).
    rewrite (dropEnd_append (pre +:+ quote) ("%2" +:+ quote)
             : dropEnd 3 _ = _).
    by rewrite (append_assoc fullArgs pre quote).
Qed.

(** X5.  A token that ends with a character that is not [1], [2] or the
    quote ends with no marker: it is passed on as it is, followed by one
    space. *)
Theorem GetFullArgs_token_literal (this : ExecNode) (fullArgs s : string)
    (c : ascii) :
  c <> "1"%char -> c <> "2"%char -> c <> quote_char ->
  GetFullArgs_token this fullArgs (s +:+ String c EmptyString)
  = (fullArgs +:+ s +:+ String c EmptyString) +:+ " ".
Proof.
  intros H1 H2 Hq. unfold GetFullArgs_token.
  rewrite (EndsWith_last_neq s "%" c "1" H1
           : EndsWith _ "%1" = false).
  rewrite (EndsWith_last_neq s (quote +:+ "%1") c quote_char Hq
           : EndsWith _ (quote +:+ "%1" +:+ quote) = false).
  rewrite (EndsWith_last_neq s "%" c "2" H2
           : EndsWith _ "%2" = false).
  by rewrite (EndsWith_last_neq s (quote +:+ "%2") c quote_char Hq
              : EndsWith _ (quote +:+ "%2" +:+ quote) = false).
Qed.

Lemma GetFullArgs_token_literal_witness :
  "o"%char <> "1"%char /\ "o"%char <> "2"%char /\ "o"%char <> quote_char
  /\ GetFullArgs_token example_node "cc " ("-" +:+ String "o" EmptyString)
     = ("cc " +:+ "-" +:+ String "o" EmptyString) +:+ " ".
Proof.
  assert ("o"%char <> "1"%char) as H1 by discriminate.
  assert ("o"%char <> "2"%char) as H2 by discriminate.
  assert ("o"%char <> quote_char) as Hq by discriminate.
  split; [exact H1|]. split; [exact H2|]. split; [exact Hq|].
  exact (GetFullArgs_token_literal example_node "cc " "-" "o" H1 H2 Hq).
Defined.

(** One token only appends to the arguments it is given. *)
Lemma GetFullArgs_token_appends (this : ExecNode) (fullArgs token : string) :
  GetFullArgs_token this fullArgs token
  = fullArgs +:+ GetFullArgs_token this EmptyString token.
Proof.
  unfold GetFullArgs_token.
  repeat match goal with
  | |- context [ if ?b then _ else _ ] => destruct b
  end;
  rewrite ?(GetInputFiles_joined this fullArgs),
          ?(GetInputFiles_joined this EmptyString);
  cbn [String.append]; by rewrite ?append_assoc.
Qed.

(** X6.  [GetFullArgs] and [GetInputFiles] only append to the string they
    are given: what they produce from [fullArgs] is [fullArgs] followed by
    what they produce from the empty string. *)
Theorem GetFullArgs_appends (this : ExecNode) (fullArgs : string) :
  GetFullArgs this fullArgs = fullArgs +:+ GetFullArgs this EmptyString
  /\ forall pre post : string,
       GetInputFiles this fullArgs pre post
       = fullArgs +:+ GetInputFiles this EmptyString pre post.
Proof.
  split.
  - unfold GetFullArgs. generalize (Tokenize (m_ExecArguments this)).
    intros tokens. revert fullArgs.
    induction tokens as [|token tokens IH]; intros fullArgs.
    + cbn. by rewrite append_nil_r.
    + cbn [foldl].
      rewrite IH, (IH (GetFullArgs_token this EmptyString token)).
      by rewrite GetFullArgs_token_appends, append_assoc.
  - intros pre post. by rewrite !GetInputFiles_joined.
Qed.

Lemma expandedInputs_empty_listing (n : Node.t) :
  is_empty_listing n = true -> inputNames_of n = [].
Proof.
  unfold is_empty_listing, inputNames_of.
  intros [Hdl Hfiles]%andb_prop.
  apply bool_decide_eq_true in Hdl, Hfiles.
  destruct (decide _); [|done]. by rewrite Hfiles.
Qed.

Lemma expandedInputs_filter (inputs : Dependencies) :
  expandedInputs (filter (fun n => is_empty_listing n = false) inputs)
  = expandedInputs inputs.
Proof.
  unfold expandedInputs.
  induction inputs as [|n inputs IH]; [done|].
  rewrite filter_cons. cbn [mbind list_bind]. rewrite <- IH.
  destruct (decide (is_empty_listing n = false)) as [|Hempty]; [done|].
  apply not_false_is_true in Hempty.
  by rewrite (expandedInputs_empty_listing n Hempty).
Qed.

(** X7.  A directory list without files leaves no trace on the command
    line: neither an entry nor a separator.  The expansion is the same
    with the empty listings taken out of the dependencies, and a node
    with no input at all expands to nothing. *)
Theorem GetInputFiles_empty_listings (this : ExecNode)
    (executable : Node.t) (inputs : Dependencies)
    (fullArgs pre post : string) :
  GetInputFiles
    (set_StaticDependencies
       (executable :: filter (fun n => is_empty_listing n = false) inputs)
       this)
    fullArgs pre post
  = GetInputFiles (set_StaticDependencies (executable :: inputs) this)
                  fullArgs pre post
  /\ GetInputFiles (set_StaticDependencies [executable] this)
                   fullArgs pre post = fullArgs
  /\ GetInputFiles (set_StaticDependencies [] this)
                   fullArgs pre post = fullArgs.
Proof.
  rewrite !GetInputFiles_joined.
  cbn [set_StaticDependencies m_StaticDependencies drop].
  rewrite !drop_0, expandedInputs_filter.
  split; [done|]. cbn. by rewrite append_nil_r.
Qed.

(* ===================================================================== *)
(** ** Further properties: the dynamic pass *)
(* ===================================================================== *)

Lemma file_of_graph_weaken (g g' : NodeGraph) (n : Node.t) :
  g ⊆ g' -> file_of_graph g n -> file_of_graph g' n.
Proof.
  intros Hsub [Hfile [name Hname]]. split; [done|].
  exists name. exact (lookup_weaken g g' _ _ Hname Hsub).
Qed.

(** A graph that grew by file nodes only has the collisions it had. *)
Lemma collides_grow (g g' : NodeGraph) (file : FileIO.FileInfo) :
  g ⊆ g' ->
  (forall name n, g' !! name = Some n -> g !! name = None ->
                  n = Node.FileNode name) ->
  collides g' file <-> collides g file.
Proof.
  intros Hsub Hnew. split; intros [sn [Hsn Hfile]].
  - destruct (g !! FileIO.m_Name file) as [sn'|] eqn:Hg.
    + exists sn'. split; [done|].
      rewrite (lookup_weaken g g' _ _ Hg Hsub) in Hsn. congruence.
    + rewrite (Hnew _ _ Hsn Hg) in Hfile. done.
  - exists sn. split; [|done]. exact (lookup_weaken g g' _ _ Hsn Hsub).
Qed.

(** One listing: the graph grows, by file nodes stored under their names;
    the pass fails exactly on a collision; and the list holds file nodes
    of the graph if it did. *)
Lemma DoDynamicDependencies_files_inv (files : list FileIO.FileInfo) :
  forall (g g' : NodeGraph) (dyn dyn' : Dependencies) (ok : bool),
    DoDynamicDependencies_files files g dyn = (ok, g', dyn') ->
    g ⊆ g'
    /\ (forall name n, g' !! name = Some n -> g !! name = None ->
                       n = Node.FileNode name)
    /\ (ok = false <-> Exists (collides g) files)
    /\ (Forall (file_of_graph g) dyn -> Forall (file_of_graph g') dyn').
Proof.
  induction files as [|file files IH]; intros g g' dyn dyn' ok.
  - intros [= <- <- <-]. split; [done|]. split; [congruence|].
    split; [|done]. split; [done | by intros ?%Exists_nil].
  - cbn [DoDynamicDependencies_files]. unfold FindNode.
    destruct (g !! FileIO.m_Name file) as [sn|] eqn:Hfind.
    + destruct (Node.IsAFile sn) eqn:Hfile; cbn [negb].
      * intros Hrun. apply IH in Hrun as (Hsub & Hnew & Hok & Hdyn).
        split; [done|]. split; [done|]. split.
        { rewrite Hok, Exists_cons. split; [by right|].
          intros [[sn' [Hsn' Hnot]]|]; [congruence | done]. }
        intros Hall. apply Hdyn, Forall_app. split; [done|].
        apply Forall_singleton. split; [done | by eexists].
      * intros [= <- <- <-]. split; [done|]. split; [congruence|].
        split; [|done]. split; [|done]. intros _.
        apply Exists_cons_hd. by exists sn.
    + set (sn := Node.FileNode (FileIO.m_Name file)).
      assert (g ⊆ CreateNode g sn) as Hsub0 by (by apply insert_subseteq).
      intros Hrun. apply IH in Hrun as (Hsub & Hnew & Hok & Hdyn).
      assert (forall name n, g' !! name = Some n -> g !! name = None ->
                             n = Node.FileNode name) as Hnew'.
      { intros name n Hn Hg.
        destruct (CreateNode g sn !! name) as [m|] eqn:Hm;
          [|by apply Hnew].
        rewrite (lookup_weaken _ g' _ _ Hm Hsub) in Hn.
        injection Hn as <-. unfold CreateNode in Hm.
        apply lookup_insert_Some in Hm as [[<- <-]|[_ Hm]]; [done|].
        congruence. }
      split; [by etrans|]. split; [exact Hnew'|]. split.
      { rewrite Hok, Exists_cons.
        assert (Exists (collides (CreateNode g sn)) files
                <-> Exists (collides g) files) as ->.
        { rewrite !Exists_exists. apply exist_proper. intros file'.
          apply and_iff_compat_l, collides_grow; [done|].
          intros name n Hn Hg. unfold CreateNode in Hn.
          apply lookup_insert_Some in Hn as [[<- <-]|[_ Hn]]; [done|].
          congruence. }
        split; [by right|].
        intros [[sn' [Hsn' _]]|]; [congruence | done]. }
      intros Hall. apply Hdyn, Forall_app. split.
      { eapply Forall_impl; [exact Hall|].
        intros n. by apply file_of_graph_weaken. }
      apply Forall_singleton. split; [done|].
      exists (FileIO.m_Name file). apply lookup_insert_eq.
Qed.

(** All the listings: the same, and a pass that succeeded found every
    directory list in its place. *)
Lemma DoDynamicDependencies_loop_inv (staticDeps : Dependencies)
    (count : nat) :
  forall (i : nat) (g g' : NodeGraph) (dyn dyn' : Dependencies) (ok : bool),
    DoDynamicDependencies_loop count i staticDeps g dyn
    = Some (ok, g', dyn') ->
    g ⊆ g'
    /\ (forall name n, g' !! name = Some n -> g !! name = None ->
                       n = Node.FileNode name)
    /\ (Forall (file_of_graph g) dyn -> Forall (file_of_graph g') dyn')
    /\ (ok = true ->
        length (take count (drop i staticDeps)) = count
        /\ Forall (fun n => Node.GetType n = Node.DIRECTORY_LIST_NODE)
                  (take count (drop i staticDeps))).
Proof.
  induction count as [|count IH]; intros i g g' dyn dyn' ok;
    cbn [DoDynamicDependencies_loop].
  - intros [= <- <- <-]. split; [done|]. split; [congruence|].
    split; [done|]. intros _. by rewrite take_0.
  - destruct (staticDeps !! i) as [n|] eqn:Hi; [|done].
    destruct (decide _) as [Hdl|]; [|done].
    destruct (DoDynamicDependencies_files _ _ _) as [[ok1 g1] dyn1] eqn:Hrun1.
    apply DoDynamicDependencies_files_inv in Hrun1
      as (Hsub1 & Hnew1 & _ & Hdyn1).
    destruct ok1.
    + intros Hrun. apply IH in Hrun as (Hsub & Hnew & Hdyn & Hok).
      split; [by etrans|]. split.
      { intros name m Hm Hg.
        destruct (g1 !! name) as [m1|] eqn:Hm1; [|by apply Hnew].
        rewrite (lookup_weaken _ g' _ _ Hm1 Hsub) in Hm.
        injection Hm as <-. by apply Hnew1. }
      split; [by intros ?; apply Hdyn, Hdyn1|].
      intros Hok'. destruct (Hok Hok') as [Hlen Hdls].
      rewrite (drop_S _ _ _ Hi). cbn [take length].
      split; [by rewrite Hlen | by constructor].
    + intros [= <- <- <-]. split; [done|]. split; [done|].
      split; [done | done].
Qed.

Lemma DoDynamicDependencies_loop_collision (staticDeps : Dependencies)
    (count : nat) :
  forall (i : nat) (g g' : NodeGraph) (dyn dyn' : Dependencies) (ok : bool),
    DoDynamicDependencies_loop count i staticDeps g dyn
    = Some (ok, g', dyn') ->
    length (take count (drop i staticDeps)) = count ->
    (ok = false
     <-> Exists (collides g) (listedFiles (take count (drop i staticDeps)))).
Proof.
  induction count as [|count IH]; intros i g g' dyn dyn' ok;
    cbn [DoDynamicDependencies_loop].
  - intros [= <- <- <-] _. rewrite take_0. cbn.
    split; [done | by intros ?%Exists_nil].
  - destruct (staticDeps !! i) as [n|] eqn:Hi; [|done].
    destruct (decide _) as [Hdl|]; [|done].
    rewrite (drop_S _ _ _ Hi). cbn [take length].
    unfold listedFiles. cbn [mbind list_bind]. rewrite Exists_app.
    destruct (DoDynamicDependencies_files _ _ _) as [[ok1 g1] dyn1] eqn:Hrun1.
    apply DoDynamicDependencies_files_inv in Hrun1
      as (Hsub1 & Hnew1 & Hok1 & _).
    destruct ok1.
    + intros Hrun [= Hlen]. rewrite (IH _ _ _ _ _ _ Hrun Hlen).
      assert (Exists (collides g1)
                (take count (drop (S i) staticDeps) ≫= Node.GetFiles)
              <-> Exists (collides g)
                    (take count (drop (S i) staticDeps) ≫= Node.GetFiles))
        as ->.
      { rewrite !Exists_exists. apply exist_proper. intros file'.
        by apply and_iff_compat_l, collides_grow. }
      split; [by right|]. intros [Hhere|]; [|done].
      apply Hok1 in Hhere. done.
    + intros [= <- <- <-] _. split; [|done]. intros _. left. by apply Hok1.
Qed.

(** X8.  The dynamic pass only adds to the graph and only touches the
    dynamic dependencies of the node: every node of the graph is still
    there, under the same name; a node that was not there is the file node
    of its name; and the node is as before but for
    [m_DynamicDependencies].  This holds also for a pass that fails. *)
Theorem DoDynamicDependencies_grows_graph (nodeGraph nodeGraph1 : NodeGraph)
    (this this1 : ExecNode) (ok : bool) :
  DoDynamicDependencies nodeGraph this = Some (ok, nodeGraph1, this1) ->
  nodeGraph ⊆ nodeGraph1
  /\ (forall name n,
         nodeGraph1 !! name = Some n -> nodeGraph !! name = None ->
         n = Node.FileNode name)
  /\ this1 = set_DynamicDependencies (m_DynamicDependencies this1) this.
Proof.
  unfold DoDynamicDependencies.
  destruct (DoDynamicDependencies_loop _ _ _ _ _)
    as [[[ok' g1] dyn1]|] eqn:Hrun; [|done].
  intros [= <- <- <-].
  apply DoDynamicDependencies_loop_inv in Hrun as (Hsub & Hnew & _ & _).
  done.
Qed.

Lemma DoDynamicDependencies_grows_graph_witness :
  DoDynamicDependencies example_graph example_node_dirs
  = Some (true, example_graph_after, example_node_after)
  /\ example_graph ⊆ example_graph_after
  /\ (forall name n,
         example_graph_after !! name = Some n ->
         example_graph !! name = None ->
         n = Node.FileNode name)
  /\ example_node_after
     = set_DynamicDependencies (m_DynamicDependencies example_node_after)
                               example_node_dirs.
Proof.
  assert (DoDynamicDependencies example_graph example_node_dirs
          = Some (true, example_graph_after, example_node_after)) as Hrun
    by (vm_compute; reflexivity).
  split; [exact Hrun|].
  exact (DoDynamicDependencies_grows_graph _ _ _ _ _ Hrun).
Defined.

(** X9.  On a node whose directory lists are in place, the dynamic pass
    fails exactly when the path of a listed file is taken, in the graph
    the pass starts from, by a node that is not a file. *)
Theorem DoDynamicDependencies_fails_iff_collision
    (nodeGraph : NodeGraph) (this : ExecNode) :
  directoryLists_ok this ->
  exists (ok : bool) (nodeGraph1 : NodeGraph) (this1 : ExecNode),
    DoDynamicDependencies nodeGraph this = Some (ok, nodeGraph1, this1)
    /\ (ok = false
        <-> Exists (collides nodeGraph)
                   (listedFiles (directoryLists this))).
Proof.
  intros [Hlen Hdl]. unfold directoryLists in Hlen, Hdl.
  unfold DoDynamicDependencies, directoryLists.
  destruct (DoDynamicDependencies_loop_spec (m_StaticDependencies this)
              _ _ nodeGraph [] Hlen Hdl)
    as (ok & g1 & added & Hrun & _).
  rewrite Hrun. eexists _, _, _. split; [reflexivity|].
  exact (DoDynamicDependencies_loop_collision _ _ _ _ _ _ _ _ Hrun Hlen).
Qed.

Lemma DoDynamicDependencies_fails_iff_collision_witness :
  directoryLists_ok example_node_dirs
  /\ exists (ok : bool) (nodeGraph1 : NodeGraph) (this1 : ExecNode),
       DoDynamicDependencies example_graph_alias example_node_dirs
       = Some (ok, nodeGraph1, this1)
       /\ (ok = false
           <-> Exists (collides example_graph_alias)
                      (listedFiles (directoryLists example_node_dirs))).
Proof.
  assert (directoryLists_ok example_node_dirs) as Hok.
  { split; [reflexivity | repeat constructor]. }
  split; [exact Hok|].
  exact (DoDynamicDependencies_fails_iff_collision example_graph_alias
           example_node_dirs Hok).
Defined.

(** X10.  Whatever the dynamic pass puts in the list is a file node that
    the graph holds, also when the pass fails half way. *)
Theorem DoDynamicDependencies_files_only (nodeGraph nodeGraph1 : NodeGraph)
    (this this1 : ExecNode) (ok : bool) :
  DoDynamicDependencies nodeGraph this = Some (ok, nodeGraph1, this1) ->
  Forall (file_of_graph nodeGraph1) (m_DynamicDependencies this1).
Proof.
  unfold DoDynamicDependencies.
  destruct (DoDynamicDependencies_loop _ _ _ _ _)
    as [[[ok' g1] dyn1]|] eqn:Hrun; [|done].
  intros [= <- <- <-].
  apply DoDynamicDependencies_loop_inv in Hrun as (_ & _ & Hdyn & _).
  by apply Hdyn.
Qed.

Lemma DoDynamicDependencies_files_only_witness :
  DoDynamicDependencies example_graph example_node_dirs
  = Some (true, example_graph_after, example_node_after)
  /\ Forall (file_of_graph example_graph_after)
            (m_DynamicDependencies example_node_after).
Proof.
  assert (DoDynamicDependencies example_graph example_node_dirs
          = Some (true, example_graph_after, example_node_after)) as Hrun
    by (vm_compute; reflexivity).
  split; [exact Hrun|].
  exact (DoDynamicDependencies_files_only _ _ _ _ _ Hrun).
Defined.

(** X11.  A node without input paths has no dynamic dependencies: the pass
    succeeds, empties the list and leaves the graph alone, and looks at no
    static dependency, so it does so even on a node that has none. *)
Theorem DoDynamicDependencies_no_paths (nodeGraph : NodeGraph)
    (this : ExecNode) :
  m_ExecInputPath this = [] ->
  DoDynamicDependencies nodeGraph this
  = Some (true, nodeGraph, set_DynamicDependencies [] this).
Proof.
  intros Hpaths.
  unfold DoDynamicDependencies, DoDynamicDependencies_endIndex,
    DoDynamicDependencies_startIndex.
  rewrite Hpaths. cbn [length].
  pose proof (Z.mod_pos_bound (1 + m_NumExecInputFiles this) (2 ^ 32)
                ltac:(lia)) as Hstart.
  rewrite Z.add_0_r, (Z.mod_small _ (2 ^ 64)) by lia.
  by rewrite Z.sub_diag.
Qed.

Lemma DoDynamicDependencies_no_paths_witness :
  m_ExecInputPath (ExecNode_new "out") = []
  /\ DoDynamicDependencies example_graph (ExecNode_new "out")
     = Some (true, example_graph,
             set_DynamicDependencies [] (ExecNode_new "out")).
Proof.
  split; [reflexivity|].
  exact (DoDynamicDependencies_no_paths example_graph (ExecNode_new "out")
           eq_refl).
Defined.

(** X12.  A dynamic pass that succeeds went through both assertions at
    every directory list: the static dependencies hold a directory list
    for each input path, where the pass looks for it. *)
Theorem DoDynamicDependencies_success_lists (nodeGraph nodeGraph1 : NodeGraph)
    (this this1 : ExecNode) :
  DoDynamicDependencies nodeGraph this = Some (true, nodeGraph1, this1) ->
  directoryLists_ok this.
Proof.
  unfold DoDynamicDependencies, directoryLists_ok, directoryLists.
  destruct (DoDynamicDependencies_loop _ _ _ _ _)
    as [[[ok' g1] dyn1]|] eqn:Hrun; [|done].
  intros [= -> <- <-].
  apply DoDynamicDependencies_loop_inv in Hrun as (_ & _ & _ & Hok).
  by apply Hok.
Qed.

Lemma DoDynamicDependencies_success_lists_witness :
  DoDynamicDependencies example_graph example_node_dirs
  = Some (true, example_graph_after, example_node_after)
  /\ directoryLists_ok example_node_dirs.
Proof.
  assert (DoDynamicDependencies example_graph example_node_dirs
          = Some (true, example_graph_after, example_node_after)) as Hrun
    by (vm_compute; reflexivity).
  split; [exact Hrun|].
  exact (DoDynamicDependencies_success_lists _ _ _ _ Hrun).
Defined.

Lemma expandedInputs_files (inputFiles : Dependencies) :
  Forall (fun n => Node.GetType n <> Node.DIRECTORY_LIST_NODE) inputFiles ->
  expandedInputs inputFiles = Node.GetName <$> inputFiles.
Proof.
  unfold expandedInputs. induction 1 as [|n inputFiles Hn _ IH]; [done|].
  cbn [mbind list_bind fmap list_fmap]. rewrite IH.
  unfold inputNames_of. by destruct (decide _).
Qed.

Lemma expandedInputs_lists (dirLists : Dependencies) :
  Forall (fun n => Node.GetType n = Node.DIRECTORY_LIST_NODE) dirLists ->
  expandedInputs dirLists = FileIO.m_Name <$> listedFiles dirLists.
Proof.
  unfold expandedInputs, listedFiles.
  induction 1 as [|n dirLists Hn _ IH]; [done|].
  cbn [mbind list_bind]. rewrite fmap_app, IH.
  unfold inputNames_of. by destruct (decide _).
Qed.

(** Where the dynamic pass looks for the directory lists of a node laid
    out as [Initialize] lays it out, with fewer than [2 ^ 32] static
    dependencies. *)
Lemma directoryLists_layout (this : ExecNode) (executable : Node.t)
    (inputFiles dirLists : Dependencies) :
  m_StaticDependencies this = executable :: inputFiles ++ dirLists ->
  m_NumExecInputFiles this = Z.of_nat (length inputFiles) ->
  length dirLists = length (m_ExecInputPath this) ->
  Z.of_nat (length (m_StaticDependencies this)) < 2 ^ 32 ->
  Z.to_nat (DoDynamicDependencies_startIndex this) = S (length inputFiles)
  /\ Z.to_nat (DoDynamicDependencies_endIndex this
               - DoDynamicDependencies_startIndex this)
     = length (m_ExecInputPath this)
  /\ directoryLists this = dirLists.
Proof.
  intros Hdeps Hnum Hlen Hfew.
  rewrite Hdeps in Hfew. cbn [length] in Hfew. rewrite length_app in Hfew.
  assert (DoDynamicDependencies_startIndex this
          = 1 + Z.of_nat (length inputFiles)) as Hstart.
  { unfold DoDynamicDependencies_startIndex. rewrite Hnum.
    apply Z.mod_small. lia. }
  assert (DoDynamicDependencies_endIndex this
          = 1 + Z.of_nat (length inputFiles)
            + Z.of_nat (length (m_ExecInputPath this))) as Hend.
  { unfold DoDynamicDependencies_endIndex. rewrite Hnum.
    rewrite (Z.mod_small _ (2 ^ 32)) by lia.
    apply Z.mod_small. lia. }
  unfold directoryLists. rewrite Hend, Hstart, Hdeps.
  replace (Z.to_nat (1 + Z.of_nat (length inputFiles)))
    with (S (length inputFiles)) by lia.
  replace (Z.to_nat
             (1 + Z.of_nat (length inputFiles)
              + Z.of_nat (length (m_ExecInputPath this))
              - (1 + Z.of_nat (length inputFiles))))
    with (length (m_ExecInputPath this)) by lia.
  split; [done|]. split; [done|].
  cbn [drop]. rewrite drop_app_length, <- Hlen. apply firstn_all.
Qed.

(** X13.  The command line and the dynamic dependencies agree.  On a node
    laid out as the static pass lays it out (the executable, the input
    files, the directory lists), in a graph that stores its nodes under
    their names, with fewer than [2 ^ 32] static dependencies (so that the
    32-bit index of the first directory list does not wrap), after a
    successful dynamic pass the expansion of the
    inputs is the names of the input files followed by the names of the
    dynamic dependencies, in this order: every listed file on the command
    line is a dynamic dependency, and every dynamic dependency is on the
    command line. *)
Theorem GetInputFiles_dynamic_dependencies
    (nodeGraph nodeGraph1 : NodeGraph) (this this1 : ExecNode)
    (executable : Node.t) (inputFiles dirLists : Dependencies)
    (fullArgs pre post : string) :
  m_StaticDependencies this = executable :: inputFiles ++ dirLists ->
  m_NumExecInputFiles this = Z.of_nat (length inputFiles) ->
  length dirLists = length (m_ExecInputPath this) ->
  Z.of_nat (length (m_StaticDependencies this)) < 2 ^ 32 ->
  Forall (fun n => Node.GetType n <> Node.DIRECTORY_LIST_NODE) inputFiles ->
  Forall (fun n => Node.GetType n = Node.DIRECTORY_LIST_NODE) dirLists ->
  graph_ok nodeGraph ->
  DoDynamicDependencies nodeGraph this = Some (true, nodeGraph1, this1) ->
  GetInputFiles this1 fullArgs pre post
  = fullArgs
    +:+ joined (wrapped pre post
          <$> (Node.GetName <$> inputFiles)
              ++ (Node.GetName <$> m_DynamicDependencies this1)).
Proof.
  intros Hdeps Hnum Hlen Hfew Hfiles Hlists Hg Hrun.
  destruct (directoryLists_layout this executable inputFiles dirLists
              Hdeps Hnum Hlen Hfew) as (_ & _ & Hdl).
  rewrite GetInputFiles_joined.
  unfold DoDynamicDependencies in Hrun.
  unfold directoryLists in Hdl.
  destruct (DoDynamicDependencies_loop_spec (m_StaticDependencies this)
              (Z.to_nat (DoDynamicDependencies_endIndex this
                         - DoDynamicDependencies_startIndex this))
              (Z.to_nat (DoDynamicDependencies_startIndex this))
              nodeGraph [])
    as (ok & g1 & added & Hloop & _ & Hnodes & _).
  { rewrite Hdl.
    by destruct (directoryLists_layout this executable inputFiles dirLists
                   Hdeps Hnum Hlen Hfew) as (_ & -> & _). }
  { by rewrite Hdl. }
  rewrite Hloop in Hrun. cbn [app] in Hrun. injection Hrun as -> <- <-.
  cbn [set_DynamicDependencies m_StaticDependencies m_DynamicDependencies].
  rewrite Hdeps. cbn [drop]. rewrite drop_0.
  unfold expandedInputs at 1. rewrite bind_app.
  fold (expandedInputs inputFiles). fold (expandedInputs dirLists).
  rewrite (expandedInputs_files _ Hfiles), (expandedInputs_lists _ Hlists).
  do 4 f_equal. symmetry.
  apply (nodes_of_names g1).
  - exact (DoDynamicDependencies_loop_graph_ok _ _ _ _ _ _ _ _ Hg Hloop).
  - rewrite <- Hdl. by apply Hnodes.
Qed.

Lemma GetInputFiles_dynamic_dependencies_witness :
  m_StaticDependencies example_node_dirs
  = Node.FileNode "cc"
    :: [Node.FileNode "a.c"; Node.FileNode "b.c"] ++ [example_listing]
  /\ m_NumExecInputFiles example_node_dirs
     = Z.of_nat (length [Node.FileNode "a.c"; Node.FileNode "b.c"])
  /\ length [example_listing] = length (m_ExecInputPath example_node_dirs)
  /\ Z.of_nat (length (m_StaticDependencies example_node_dirs)) < 2 ^ 32
  /\ Forall (fun n => Node.GetType n <> Node.DIRECTORY_LIST_NODE)
            [Node.FileNode "a.c"; Node.FileNode "b.c"]
  /\ Forall (fun n => Node.GetType n = Node.DIRECTORY_LIST_NODE)
            [example_listing]
  /\ graph_ok example_graph
  /\ DoDynamicDependencies example_graph example_node_dirs
     = Some (true, example_graph_after, example_node_after)
  /\ GetInputFiles example_node_after "cc " "-I" EmptyString
     = "cc "
       +:+ joined (wrapped "-I" EmptyString
             <$> (Node.GetName
                    <$> [Node.FileNode "a.c"; Node.FileNode "b.c"])
                 ++ (Node.GetName
                       <$> m_DynamicDependencies example_node_after)).
Proof.
  assert (Forall (fun n => Node.GetType n <> Node.DIRECTORY_LIST_NODE)
                 [Node.FileNode "a.c"; Node.FileNode "b.c"]) as Hfiles
    by (repeat constructor; discriminate).
  assert (Forall (fun n => Node.GetType n = Node.DIRECTORY_LIST_NODE)
                 [example_listing]) as Hlists
    by (repeat constructor).
  assert (graph_ok example_graph) as Hg.
  { apply map_Forall_insert_2; [reflexivity | apply map_Forall_empty]. }
  assert (DoDynamicDependencies example_graph example_node_dirs
          = Some (true, example_graph_after, example_node_after)) as Hrun
    by (vm_compute; reflexivity).
  assert (Z.of_nat (length (m_StaticDependencies example_node_dirs))
          < 2 ^ 32) as Hfew by (vm_compute; reflexivity).
  do 3 (split; [reflexivity|]). split; [exact Hfew|].
  split; [exact Hfiles|]. split; [exact Hlists|]. split; [exact Hg|].
  split; [exact Hrun|].
  exact (GetInputFiles_dynamic_dependencies example_graph
           example_graph_after example_node_dirs example_node_after
           (Node.FileNode "cc")
           [Node.FileNode "a.c"; Node.FileNode "b.c"] [example_listing]
           "cc " "-I" EmptyString
           eq_refl eq_refl eq_refl Hfew Hfiles Hlists Hg Hrun).
Defined.

(* ===================================================================== *)
(** ** Further properties: the static pass *)
(* ===================================================================== *)

Section StaticPassFurther.

Variable resolve : NodeGraph -> string -> list Node.t.
Variable InitializePreBuildDependencies :
  NodeGraph -> list string -> bool * NodeGraph * Dependencies.
Variable GetFileNodes :
  NodeGraph -> list string -> bool * NodeGraph * Dependencies.
Variable GetDirectoryListNodeList :
  NodeGraph -> DirectoryListSpec -> bool * NodeGraph * Dependencies.

(** X14.  [Initialize] stores static dependencies only when it succeeds:
    when it returns false, whichever helper failed, the static and the
    dynamic dependencies of the node are the ones it had, and so is its
    command line. *)
Theorem Initialize_false_keeps_dependencies
    (nodeGraph nodeGraph' : NodeGraph) (this this' : ExecNode) :
  Initialize resolve InitializePreBuildDependencies GetFileNodes
             GetDirectoryListNodeList nodeGraph this
  = Some (false, nodeGraph', this') ->
  m_StaticDependencies this' = m_StaticDependencies this
  /\ m_DynamicDependencies this' = m_DynamicDependencies this
  /\ GetFullArgs this' EmptyString = GetFullArgs this EmptyString.
Proof.
  unfold Initialize.
  destruct (InitializePreBuildDependencies _ _) as [[[] g0] preBuild];
    cbn [negb]; [|by intros [= <- <-]].
  destruct (GetFileNode _ _ _ _) as [[] executable];
    cbn [negb]; [|by intros [= <- <-]].
  destruct (negb (length executable =? 1)%nat); [done|].
  destruct (GetFileNodes _ _) as [[[] g1] inputFiles];
    cbn [negb]; [|by intros [= <- <-]].
  destruct (GetDirectoryListNodeList _ _) as [[[] g2] dirLists];
    cbn [negb]; [|by intros [= <- <-]].
  by destruct (negb _).
Qed.

(** X15.  The static pass prepares the dynamic one.  After a successful
    [Initialize] of a node that had no static dependencies, with fewer
    than [2 ^ 32] of them afterwards, the entries in which
    [DoDynamicDependencies] looks for the directory lists are the
    dependencies that [GetDirectoryListNodeList] returned, one for each
    input path; and if these are directory lists, the dynamic pass on the
    node and the graph that [Initialize] left returns. *)
Theorem Initialize_directoryLists
    (nodeGraph nodeGraph' : NodeGraph) (this this' : ExecNode) :
  m_StaticDependencies this = [] ->
  Initialize resolve InitializePreBuildDependencies GetFileNodes
             GetDirectoryListNodeList nodeGraph this
  = Some (true, nodeGraph', this') ->
  Z.of_nat (length (m_StaticDependencies this')) < 2 ^ 32 ->
  exists (g1 : NodeGraph) (dirLists : Dependencies),
    GetDirectoryListNodeList g1
      {| dl_paths := m_ExecInputPath this;
         dl_excludePaths := m_ExecInputExcludePath this;
         dl_filesToExclude := m_ExecInputExcludedFiles this;
         dl_excludePatterns := m_ExecInputExcludePattern this;
         dl_recurse := m_ExecInputPathRecurse this;
         dl_includeReadOnlyStatusInHash := false;
         dl_includeDirs := false;
         dl_patterns := m_ExecInputPattern this |}
    = (true, nodeGraph', dirLists)
    /\ directoryLists this' = dirLists
    /\ length dirLists = length (m_ExecInputPath this')
    /\ (Forall (fun n => Node.GetType n = Node.DIRECTORY_LIST_NODE)
               dirLists ->
        exists (ok : bool) (nodeGraph2 : NodeGraph) (this2 : ExecNode),
          DoDynamicDependencies nodeGraph' this'
          = Some (ok, nodeGraph2, this2)).
Proof.
  intros Hfresh Hinit Hfew.
  apply Initialize_true in Hinit
    as (g0 & g1 & pre & exe & files & dirs
        & _ & _ & _ & _ & Hdirs & Hlen & ->).
  set (this' := set_StaticDependencies _ _) in *.
  assert (Hfew' := Hfew). unfold this' in Hfew'.
  cbn [set_StaticDependencies m_StaticDependencies] in Hfew'.
  rewrite Hfresh in Hfew'. cbn [app length] in Hfew'.
  rewrite length_app in Hfew'.
  destruct (directoryLists_layout this' exe files dirs)
    as (_ & Hcount & Hdl).
  { unfold this'. cbn. by rewrite Hfresh. }
  { unfold this'. cbn. apply Z.mod_small. lia. }
  { exact Hlen. }
  { exact Hfew. }
  exists g1, dirs. split; [exact Hdirs|]. split; [exact Hdl|].
  split; [exact Hlen|]. intros Hlists.
  unfold DoDynamicDependencies. unfold directoryLists in Hdl.
  destruct (DoDynamicDependencies_loop_spec
              (m_StaticDependencies this')
              (Z.to_nat (DoDynamicDependencies_endIndex this'
                         - DoDynamicDependencies_startIndex this'))
              (Z.to_nat (DoDynamicDependencies_startIndex this'))
              nodeGraph' [])
    as (ok & g2 & added & Hloop & _).
  { by rewrite Hdl, Hcount. }
  { by rewrite Hdl. }
  rewrite Hloop. by eexists _, _, _.
Qed.

End StaticPassFurther.

Lemma Initialize_false_keeps_dependencies_witness :
  Initialize example_resolve_two example_InitializePreBuildDependencies
             example_GetFileNodes example_GetDirectoryListNodeList
             example_graph example_node_fresh
  = Some (false, example_graph, example_node_fresh)
  /\ m_StaticDependencies example_node_fresh
     = m_StaticDependencies example_node_fresh
  /\ m_DynamicDependencies example_node_fresh
     = m_DynamicDependencies example_node_fresh
  /\ GetFullArgs example_node_fresh EmptyString
     = GetFullArgs example_node_fresh EmptyString.
Proof.
  assert (Initialize example_resolve_two
            example_InitializePreBuildDependencies
            example_GetFileNodes example_GetDirectoryListNodeList
            example_graph example_node_fresh
          = Some (false, example_graph, example_node_fresh)) as Hinit
    by reflexivity.
  split; [exact Hinit|].
  exact (Initialize_false_keeps_dependencies _ _ _ _ _ _ _ _ Hinit).
Defined.

Lemma Initialize_directoryLists_witness :
  m_StaticDependencies example_node_fresh = []
  /\ Initialize example_resolve example_InitializePreBuildDependencies
       example_GetFileNodes example_GetDirectoryListNodeList
       example_graph example_node_fresh
     = Some (true, example_graph, example_node_dirs)
  /\ Z.of_nat (length (m_StaticDependencies example_node_dirs)) < 2 ^ 32
  /\ exists (g1 : NodeGraph) (dirLists : Dependencies),
       example_GetDirectoryListNodeList g1
         {| dl_paths := m_ExecInputPath example_node_fresh;
            dl_excludePaths := m_ExecInputExcludePath example_node_fresh;
            dl_filesToExclude := m_ExecInputExcludedFiles example_node_fresh;
            dl_excludePatterns :=
              m_ExecInputExcludePattern example_node_fresh;
            dl_recurse := m_ExecInputPathRecurse example_node_fresh;
            dl_includeReadOnlyStatusInHash := false;
            dl_includeDirs := false;
            dl_patterns := m_ExecInputPattern example_node_fresh |}
       = (true, example_graph, dirLists)
       /\ directoryLists example_node_dirs = dirLists
       /\ length dirLists = length (m_ExecInputPath example_node_dirs)
       /\ (Forall (fun n => Node.GetType n = Node.DIRECTORY_LIST_NODE)
                  dirLists ->
           exists (ok : bool) (nodeGraph2 : NodeGraph) (this2 : ExecNode),
             DoDynamicDependencies example_graph example_node_dirs
             = Some (ok, nodeGraph2, this2)).
Proof.
  assert (Z.of_nat (length (m_StaticDependencies example_node_dirs))
          < 2 ^ 32) as Hfew by (vm_compute; reflexivity).
  split; [reflexivity|]. split; [reflexivity|]. split; [exact Hfew|].
  exact (Initialize_directoryLists example_resolve
           example_InitializePreBuildDependencies example_GetFileNodes
           example_GetDirectoryListNodeList
           example_graph example_graph
           example_node_fresh example_node_dirs
           eq_refl eq_refl Hfew).
Defined.

(* ===================================================================== *)
(** ** Further properties: the build *)
(* ===================================================================== *)

(** Every case of a build that got past the spawn: the exit reason, the
    exit code against the expected one, the flags. *)
Ltac DoBuild_cases child this options :=
  case_decide; [|done];
  destruct (c_exitReason child) eqn:?; cbn;
  try (destruct (Z.eqb_spec (c_exitCode child) (m_ExecReturnCode this));
       cbn);
  try (destruct (m_ExecUseStdOutAsOutput this) eqn:?; cbn;
       unfold WriteStdOutAsOutput;
       destruct (negb (String.eqb (c_stdout child) EmptyString)));
  try (destruct (m_ExecAlwaysShowOutput this) eqn:?;
       destruct (m_ShowCommandOutput options) eqn:?; cbn).

(** X16.  [EmitCompilationMessage] reads the executable only for the
    command lines: it trips over a node without static dependencies
    exactly when the command lines are shown.  When neither the summary
    nor the command lines are shown it still emits a message, an empty
    one. *)
Theorem EmitCompilationMessage_None_iff (options : FBuildOptions)
    (this : ExecNode) (args : string) (w : World) :
  (EmitCompilationMessage options this args w = None
   <-> m_ShowCommandLines options = true /\ m_StaticDependencies this = [])
  /\ (m_ShowCommandSummary options = false ->
      m_ShowCommandLines options = false ->
      EmitCompilationMessage options this args w
      = Some (emit (FLOG_OUTPUT EmptyString) w)).
Proof.
  unfold EmitCompilationMessage, GetExecutable.
  destruct (m_ShowCommandLines options), (m_ShowCommandSummary options),
    (m_StaticDependencies this) as [|exe inputs]; cbn;
    (split; [split; [done | by intros []] | done]).
Qed.

(** X18.  The stamp is recorded exactly by a successful build, as its last
    step.  A failed build leaves the node as it was and records no stamp;
    a successful one changes the stamp only, to the last write time of the
    node's file in the world it leaves. *)
Theorem DoBuild_stamp (options : FBuildOptions) (child : Child)
    (this : ExecNode) (w : World)
    (executable : Node.t) (inputs : Dependencies) :
  m_StaticDependencies this = executable :: inputs ->
  exists (result : BuildResult) (this' : ExecNode) (w' : World),
    DoBuild options child this w = Some (result, this', w')
    /\ (result = NODE_RESULT_FAILED ->
        this' = this
        /\ forallb (fun e => negb (is_stamp_event e)) (events_since w w')
           = true)
    /\ (result = NODE_RESULT_OK ->
        this' = set_Stamp (GetFileLastWriteTime w' (m_Name this)) this
        /\ last (events_since w w') = Some (RECORD_STAMP (m_Name this))).
Proof.
  intros Hdeps. DoBuild_spawn Hdeps.
  destruct (c_spawn child); cbn.
  2,3: eexists _, _, _; (split; [reflexivity|]);
       (erewrite events_since_app by trace_since);
       by split.
  DoBuild_cases child this options;
    eexists _, _, _; (split; [reflexivity|]);
    (erewrite events_since_app by trace_since);
    by split.
Qed.

Lemma DoBuild_stamp_witness :
  m_StaticDependencies example_node_stdout
  = Node.FileNode "cc" :: [Node.FileNode "a.c"; Node.FileNode "b.c"]
  /\ exists (result : BuildResult) (this' : ExecNode) (w' : World),
       DoBuild example_options (example_child Process.PROCESS_EXIT_NORMAL 0)
               example_node_stdout example_world
       = Some (result, this', w')
       /\ (result = NODE_RESULT_FAILED ->
           this' = example_node_stdout
           /\ forallb (fun e => negb (is_stamp_event e))
                      (events_since example_world w') = true)
       /\ (result = NODE_RESULT_OK ->
           this' = set_Stamp
                     (GetFileLastWriteTime w' (m_Name example_node_stdout))
                     example_node_stdout
           /\ last (events_since example_world w')
              = Some (RECORD_STAMP (m_Name example_node_stdout))).
Proof.
  split; [reflexivity|].
  exact (DoBuild_stamp example_options
           (example_child Process.PROCESS_EXIT_NORMAL 0)
           example_node_stdout example_world
           (Node.FileNode "cc")
           [Node.FileNode "a.c"; Node.FileNode "b.c"] eq_refl).
Defined.

(** X19.  The node opens, writes or closes a file exactly in a successful
    build of a node that uses the stdout as its output.  In every other
    build the files are the ones the child left, or the ones that were
    there if no child ran. *)
Theorem DoBuild_file_events (options : FBuildOptions) (child : Child)
    (this : ExecNode) (w : World)
    (executable : Node.t) (inputs : Dependencies) :
  m_StaticDependencies this = executable :: inputs ->
  exists (result : BuildResult) (this' : ExecNode) (w' : World),
    DoBuild options child this w = Some (result, this', w')
    /\ existsb is_file_event (events_since w w')
       = bool_decide (result = NODE_RESULT_OK)
         && m_ExecUseStdOutAsOutput this
    /\ (existsb is_file_event (events_since w w') = false ->
        w_files w'
        = match c_spawn child with
          | SPAWN_OK => c_writes child (w_files w)
          | _ => w_files w
          end).
Proof.
  intros Hdeps. DoBuild_spawn Hdeps.
  destruct (c_spawn child); cbn.
  2,3: eexists _, _, _; (split; [reflexivity|]);
       (erewrite events_since_app by trace_since);
       by split.
  DoBuild_cases child this options;
    eexists _, _, _; (split; [reflexivity|]);
    (erewrite events_since_app by trace_since);
    by split.
Qed.

Lemma DoBuild_file_events_witness :
  m_StaticDependencies example_node
  = Node.FileNode "cc" :: [Node.FileNode "a.c"; Node.FileNode "b.c"]
  /\ exists (result : BuildResult) (this' : ExecNode) (w' : World),
       DoBuild example_options (example_child Process.PROCESS_EXIT_NORMAL 0)
               example_node example_world
       = Some (result, this', w')
       /\ existsb is_file_event (events_since example_world w')
          = bool_decide (result = NODE_RESULT_OK)
            && m_ExecUseStdOutAsOutput example_node
       /\ (existsb is_file_event (events_since example_world w') = false ->
           w_files w'
           = match c_spawn (example_child Process.PROCESS_EXIT_NORMAL 0) with
             | SPAWN_OK =>
                 c_writes (example_child Process.PROCESS_EXIT_NORMAL 0)
                          (w_files example_world)
             | _ => w_files example_world
             end).
Proof.
  split; [reflexivity|].
  exact (DoBuild_file_events example_options
           (example_child Process.PROCESS_EXIT_NORMAL 0)
           example_node example_world
           (Node.FileNode "cc")
           [Node.FileNode "a.c"; Node.FileNode "b.c"] eq_refl).
Defined.

(** X20.  What a failed tool is reported with.  For a process that was
    spawned and not aborted and did not exit normally with the expected
    code, the build fails and ends with the dump of the stdout, the dump
    of the stderr and the error, in this order; the error carries the exit
    code if the process exited normally and the name of the exit reason
    otherwise.  So a process that timed out fails the build whatever its
    exit code. *)
Theorem DoBuild_failure_report (options : FBuildOptions) (child : Child)
    (this : ExecNode) (w : World)
    (executable : Node.t) (inputs : Dependencies) :
  m_StaticDependencies this = executable :: inputs ->
  c_spawn child = SPAWN_OK ->
  c_exitReason child <> Process.PROCESS_EXIT_ABORTED ->
  c_exitReason child <> Process.PROCESS_EXIT_NORMAL
  \/ c_exitCode child <> m_ExecReturnCode this ->
  exists (w' : World) (before : list Event),
    DoBuild options child this w = Some (NODE_RESULT_FAILED, this, w')
    /\ events_since w w'
       = before
         ++ [DUMP_OUTPUT (c_stdout child);
             DUMP_OUTPUT (c_stderr child);
             ERROR_ExecutionFailed
               (if decide (c_exitReason child = Process.PROCESS_EXIT_NORMAL)
                then ERROR_STR (c_exitCode child)
                else REASON_STR
                       (Process.ExitReasonToString
                          (Process.to_uint8 (c_exitReason child))))
               (m_Name this)]
    /\ forallb (fun e => negb (is_output_handling e || is_error e)) before
       = true.
Proof.
  intros Hdeps Hspawn Haborted Hfailed. DoBuild_spawn Hdeps.
  rewrite Hspawn. cbn. case_decide; [|done].
  destruct (c_exitReason child) eqn:Hreason; [| |done|..]; cbn.
  2: destruct (Z.eqb_spec (c_exitCode child) (m_ExecReturnCode this));
     [by destruct Hfailed|]; cbn.
  all: eexists _, [_; _; _; _]; (split; [reflexivity|]);
       (erewrite events_since_app by trace_since);
       by split.
Qed.

Lemma DoBuild_failure_report_witness :
  m_StaticDependencies example_node
  = Node.FileNode "cc" :: [Node.FileNode "a.c"; Node.FileNode "b.c"]
  /\ c_spawn (example_child Process.PROCESS_EXIT_TIMEOUT 0) = SPAWN_OK
  /\ c_exitReason (example_child Process.PROCESS_EXIT_TIMEOUT 0)
     <> Process.PROCESS_EXIT_ABORTED
  /\ (c_exitReason (example_child Process.PROCESS_EXIT_TIMEOUT 0)
      <> Process.PROCESS_EXIT_NORMAL
      \/ c_exitCode (example_child Process.PROCESS_EXIT_TIMEOUT 0)
         <> m_ExecReturnCode example_node)
  /\ exists (w' : World) (before : list Event),
       DoBuild example_options (example_child Process.PROCESS_EXIT_TIMEOUT 0)
               example_node example_world
       = Some (NODE_RESULT_FAILED, example_node, w')
       /\ events_since example_world w'
          = before
            ++ [DUMP_OUTPUT
                  (c_stdout (example_child Process.PROCESS_EXIT_TIMEOUT 0));
                DUMP_OUTPUT
                  (c_stderr (example_child Process.PROCESS_EXIT_TIMEOUT 0));
                ERROR_ExecutionFailed
                  (if decide
                        (c_exitReason
                           (example_child Process.PROCESS_EXIT_TIMEOUT 0)
                         = Process.PROCESS_EXIT_NORMAL)
                   then ERROR_STR
                          (c_exitCode
                             (example_child Process.PROCESS_EXIT_TIMEOUT 0))
                   else REASON_STR
                          (Process.ExitReasonToString
                             (Process.to_uint8
                                (c_exitReason
                                   (example_child
                                      Process.PROCESS_EXIT_TIMEOUT 0)))))
                  (m_Name example_node)]
       /\ forallb (fun e => negb (is_output_handling e || is_error e))
                  before
          = true.
Proof.
  assert (c_exitReason (example_child Process.PROCESS_EXIT_TIMEOUT 0)
          <> Process.PROCESS_EXIT_ABORTED) as Haborted by discriminate.
  assert (c_exitReason (example_child Process.PROCESS_EXIT_TIMEOUT 0)
          <> Process.PROCESS_EXIT_NORMAL
          \/ c_exitCode (example_child Process.PROCESS_EXIT_TIMEOUT 0)
             <> m_ExecReturnCode example_node) as Hfailed
    by (left; discriminate).
  split; [reflexivity|]. split; [reflexivity|].
  split; [exact Haborted|]. split; [exact Hfailed|].
  exact (DoBuild_failure_report example_options
           (example_child Process.PROCESS_EXIT_TIMEOUT 0)
           example_node example_world
           (Node.FileNode "cc")
           [Node.FileNode "a.c"; Node.FileNode "b.c"]
           eq_refl eq_refl Haborted Hfailed).
Defined.

(** X21.  A process that cannot be spawned is never read nor waited for:
    the build fails with the error that says so right after the spawn,
    nothing is dumped, and the files are untouched. *)
Theorem DoBuild_spawn_failed (options : FBuildOptions) (child : Child)
    (this : ExecNode) (w : World)
    (executable : Node.t) (inputs : Dependencies) :
  m_StaticDependencies this = executable :: inputs ->
  c_spawn child = SPAWN_FAILED ->
  exists (w' : World) (message : string) (spawn : Event),
    DoBuild options child this w = Some (NODE_RESULT_FAILED, this, w')
    /\ events_since w w'
       = [FLOG_OUTPUT message; spawn; ERROR_FailedToSpawn (m_Name this)]
    /\ is_spawn_event spawn = true
    /\ w_files w' = w_files w.
Proof.
  intros Hdeps Hspawn. DoBuild_spawn Hdeps.
  rewrite Hspawn. cbn. eexists _, _, _. split; [reflexivity|].
  erewrite events_since_app by trace_since. by split.
Qed.

Lemma DoBuild_spawn_failed_witness :
  m_StaticDependencies example_node
  = Node.FileNode "cc" :: [Node.FileNode "a.c"; Node.FileNode "b.c"]
  /\ c_spawn (mkChild SPAWN_FAILED (fun files => files)
                      EmptyString EmptyString
                      Process.PROCESS_EXIT_UNDEFINED 0) = SPAWN_FAILED
  /\ exists (w' : World) (message : string) (spawn : Event),
       DoBuild example_options
               (mkChild SPAWN_FAILED (fun files => files)
                        EmptyString EmptyString
                        Process.PROCESS_EXIT_UNDEFINED 0)
               example_node example_world
       = Some (NODE_RESULT_FAILED, example_node, w')
       /\ events_since example_world w'
          = [FLOG_OUTPUT message; spawn;
             ERROR_FailedToSpawn (m_Name example_node)]
       /\ is_spawn_event spawn = true
       /\ w_files w' = w_files example_world.
Proof.
  split; [reflexivity|]. split; [reflexivity|].
  exact (DoBuild_spawn_failed example_options
           (mkChild SPAWN_FAILED (fun files => files)
                    EmptyString EmptyString
                    Process.PROCESS_EXIT_UNDEFINED 0)
           example_node example_world
           (Node.FileNode "cc")
           [Node.FileNode "a.c"; Node.FileNode "b.c"]
           eq_refl eq_refl).
Defined.

(** X22.  Every build spawns once, after the message and before anything
    else: the executable is the name of the first static dependency, the
    arguments are [GetFullArgs] from the empty string, the working
    directory is given only if the node has one, and the environment is
    what [GetEnvironmentString] makes of the node's. *)
Theorem DoBuild_spawns_once (options : FBuildOptions) (child : Child)
    (this : ExecNode) (w : World)
    (executable : Node.t) (inputs : Dependencies) :
  m_StaticDependencies this = executable :: inputs ->
  exists (result : BuildResult) (this' : ExecNode) (w' : World)
         (message : string) (rest : list Event),
    DoBuild options child this w = Some (result, this', w')
    /\ events_since w w'
       = FLOG_OUTPUT message
         :: SPAWN (Node.GetName executable)
                  (GetFullArgs this EmptyString)
                  (if String.eqb (m_ExecWorkingDir this) EmptyString
                   then None else Some (m_ExecWorkingDir this))
                  (GetEnvironmentString (m_Environment this))
         :: rest
    /\ forallb (fun e => negb (is_spawn_event e)) rest = true.
Proof.
  intros Hdeps. DoBuild_spawn Hdeps.
  destruct (c_spawn child); cbn.
  2,3: eexists _, _, _, _, _; (split; [reflexivity|]);
       (erewrite events_since_app by trace_since);
       by split.
  DoBuild_cases child this options;
    eexists _, _, _, _, _; (split; [reflexivity|]);
    (erewrite events_since_app by trace_since);
    by split.
Qed.

Lemma DoBuild_spawns_once_witness :
  m_StaticDependencies example_node
  = Node.FileNode "cc" :: [Node.FileNode "a.c"; Node.FileNode "b.c"]
  /\ exists (result : BuildResult) (this' : ExecNode) (w' : World)
            (message : string) (rest : list Event),
       DoBuild example_options (example_child Process.PROCESS_EXIT_NORMAL 0)
               example_node example_world
       = Some (result, this', w')
       /\ events_since example_world w'
          = FLOG_OUTPUT message
            :: SPAWN (Node.GetName (Node.FileNode "cc"))
                     (GetFullArgs example_node EmptyString)
                     (if String.eqb (m_ExecWorkingDir example_node)
                                    EmptyString
                      then None else Some (m_ExecWorkingDir example_node))
                     (GetEnvironmentString (m_Environment example_node))
            :: rest
       /\ forallb (fun e => negb (is_spawn_event e)) rest = true.
Proof.
  split; [reflexivity|].
  exact (DoBuild_spawns_once example_options
           (example_child Process.PROCESS_EXIT_NORMAL 0)
           example_node example_world
           (Node.FileNode "cc")
           [Node.FileNode "a.c"; Node.FileNode "b.c"] eq_refl).
Defined.

(* ===================================================================== *)
(** ** The dynamic pass, in full *)
(* ===================================================================== *)












(* ===================================================================== *)
(** ** A cancelled build and a failed one *)
(* ===================================================================== *)

(** C7, as amended.  A cancellation does not leave [DoBuild] as a state
    of its own.  For a cancelled build (the spawn fails with [HasAborted],
    or the wait returns the exit reason Aborted) and for a failed tool
    (the spawn fails otherwise, or the process times out or exits with an
    unexpected code), [DoBuild] hands back the same: [NODE_RESULT_FAILED]
    and the node as it was.  The two builds differ in their effects: the
    cancelled one emits no error and handles no output (no dump, no file,
    no stamp), the failed one ends with an error.  Inside the process
    abstraction the cancellation is an exit reason of its own:
    [HasAborted] holds exactly for the reason Aborted, whose value no other
    reason has. *)
Theorem DoBuild_cancelled_is_failed (options : FBuildOptions)
    (cancelledChild failedChild : Child) (this : ExecNode) (w1 w2 : World)
    (executable : Node.t) (inputs : Dependencies) :
  m_StaticDependencies this = executable :: inputs ->
  cancelled cancelledChild ->
  tool_failed this failedChild ->
  (exists (w1' w2' : World) (e : Event),
      DoBuild options cancelledChild this w1
      = Some (NODE_RESULT_FAILED, this, w1')
      /\ DoBuild options failedChild this w2
         = Some (NODE_RESULT_FAILED, this, w2')
      /\ forallb (fun e => negb (is_error e || is_output_handling e))
                 (events_since w1 w1') = true
      /\ last (events_since w2 w2') = Some e
      /\ is_error e = true)
  /\ returned_of (DoBuild options cancelledChild this w1)
     = returned_of (DoBuild options failedChild this w2)
  /\ (forall p : Process.t,
         Process.HasAborted p = true
         <-> Process.m_ExitReason p = Process.PROCESS_EXIT_ABORTED)
  /\ (forall r : Process.ExitReason,
         Process.to_uint8 r = Process.to_uint8 Process.PROCESS_EXIT_ABORTED
         <-> r = Process.PROCESS_EXIT_ABORTED).
Proof.
  intros Hdeps Hcancelled Hfailed.
  assert (exists w1' : World,
             DoBuild options cancelledChild this w1
             = Some (NODE_RESULT_FAILED, this, w1')
             /\ forallb (fun e => negb (is_error e || is_output_handling e))
                        (events_since w1 w1') = true)
    as (w1' & Hrun1 & Hquiet).
  { destruct Hcancelled as [Hspawn|[Hspawn Hreason]]; DoBuild_spawn Hdeps.
    - rewrite Hspawn. cbn. eexists. split; [reflexivity|].
      by erewrite events_since_app by trace_since.
    - rewrite Hspawn, Hreason. cbn. case_decide; [|done]. cbn.
      eexists. split; [reflexivity|].
      by erewrite events_since_app by trace_since. }
  assert (exists (w2' : World) (e : Event),
             DoBuild options failedChild this w2
             = Some (NODE_RESULT_FAILED, this, w2')
             /\ last (events_since w2 w2') = Some e
             /\ is_error e = true)
    as (w2' & e & Hrun2 & Hlast & Herror).
  { destruct Hfailed as [Hspawn|(Hspawn & Hreason & Hfailed)];
      DoBuild_spawn Hdeps.
    - rewrite Hspawn. cbn. eexists _, _. split; [reflexivity|].
      erewrite events_since_app by trace_since. by split.
    - rewrite Hspawn. cbn. case_decide; [|done].
      destruct (c_exitReason failedChild) eqn:Hr; [| |done|..]; cbn.
      2: destruct (Z.eqb_spec (c_exitCode failedChild)
                     (m_ExecReturnCode this));
         [by destruct Hfailed|]; cbn.
      all: eexists _, _; (split; [reflexivity|]);
           (erewrite events_since_app by trace_since);
           by cbn. }
  split; [by exists w1', w2', e|].
  split; [by rewrite Hrun1, Hrun2|].
  split.
  - intros p. unfold Process.HasAborted. by rewrite bool_decide_eq_true.
  - intros r. split; [by destruct r | by intros ->].
Qed.

(** C7 as stated fails: a cancelled build and a build whose tool exits
    with code 1 instead of 0 hand back the same result and the same node,
    so nothing that [DoBuild] returns tells its caller which of the two
    happened; what differs is what was dumped and logged on the way. *)
Lemma DoBuild_cancelled_is_failed_counterexample :
  cancelled (example_child Process.PROCESS_EXIT_ABORTED 0)
  /\ tool_failed example_node (example_child Process.PROCESS_EXIT_NORMAL 1)
  /\ returned_of (DoBuild example_options
                    (example_child Process.PROCESS_EXIT_ABORTED 0)
                    example_node example_world)
     = Some (NODE_RESULT_FAILED, example_node)
  /\ returned_of (DoBuild example_options
                    (example_child Process.PROCESS_EXIT_NORMAL 1)
                    example_node example_world)
     = Some (NODE_RESULT_FAILED, example_node)
  /\ ~ (returned_of (DoBuild example_options
                       (example_child Process.PROCESS_EXIT_ABORTED 0)
                       example_node example_world)
        <> returned_of (DoBuild example_options
                          (example_child Process.PROCESS_EXIT_NORMAL 1)
                          example_node example_world))
  /\ (w_trace <$> (snd <$> DoBuild example_options
                              (example_child Process.PROCESS_EXIT_ABORTED 0)
                              example_node example_world))
     = Some [FLOG_OUTPUT EmptyString;
             SPAWN "cc" "-o out.o a.c b.c " None None;
             READ_ALL_DATA 0 0;
             WAIT_FOR_EXIT]
  /\ (w_trace <$> (snd <$> DoBuild example_options
                              (example_child Process.PROCESS_EXIT_NORMAL 1)
                              example_node example_world))
     = Some [FLOG_OUTPUT EmptyString;
             SPAWN "cc" "-o out.o a.c b.c " None None;
             READ_ALL_DATA 0 0;
             WAIT_FOR_EXIT;
             DUMP_OUTPUT "hello";
             DUMP_OUTPUT "oops";
             ERROR_ExecutionFailed (ERROR_STR 1) "out.o"].
Proof.
  split; [by right|]. split; [right; repeat split; [done | by right]|].
  split; [reflexivity|]. split; [reflexivity|].
  split; [intros Hne; by apply Hne|].
  split; by vm_compute.
Qed.

(** C7, as amended, at the example node, for an aborted child and a child
    that exits with code 1 where 0 is expected. *)
Lemma DoBuild_cancelled_is_failed_witness :
  m_StaticDependencies example_node
  = Node.FileNode "cc" :: [Node.FileNode "a.c"; Node.FileNode "b.c"]
  /\ cancelled (example_child Process.PROCESS_EXIT_ABORTED 0)
  /\ tool_failed example_node (example_child Process.PROCESS_EXIT_NORMAL 1)
  /\ (exists (w1' w2' : World) (e : Event),
         DoBuild example_options
                 (example_child Process.PROCESS_EXIT_ABORTED 0)
                 example_node example_world
         = Some (NODE_RESULT_FAILED, example_node, w1')
         /\ DoBuild example_options
                    (example_child Process.PROCESS_EXIT_NORMAL 1)
                    example_node example_world
            = Some (NODE_RESULT_FAILED, example_node, w2')
         /\ forallb (fun e => negb (is_error e || is_output_handling e))
                    (events_since example_world w1') = true
         /\ last (events_since example_world w2') = Some e
         /\ is_error e = true)
  /\ returned_of (DoBuild example_options
                    (example_child Process.PROCESS_EXIT_ABORTED 0)
                    example_node example_world)
     = returned_of (DoBuild example_options
                      (example_child Process.PROCESS_EXIT_NORMAL 1)
                      example_node example_world).
Proof.
  assert (cancelled (example_child Process.PROCESS_EXIT_ABORTED 0))
    as Hcancelled.
  { right. split; reflexivity. }
  assert (tool_failed example_node
            (example_child Process.PROCESS_EXIT_NORMAL 1)) as Hfailed.
  { right. split; [reflexivity|]. split; [discriminate|].
    right. discriminate. }
  split; [reflexivity|]. split; [exact Hcancelled|].
  split; [exact Hfailed|].
  destruct (DoBuild_cancelled_is_failed example_options
              (example_child Process.PROCESS_EXIT_ABORTED 0)
              (example_child Process.PROCESS_EXIT_NORMAL 1)
              example_node example_world example_world
              (Node.FileNode "cc")
              [Node.FileNode "a.c"; Node.FileNode "b.c"]
              eq_refl Hcancelled Hfailed)
    as (Hruns & Hsame & _).
  exact (conj Hruns Hsame).
Defined.
